(** * Host checker manager (host_checker_manager.go)

    A shallow embedding of the uptime-test manager: the lease election
    ([AmIPolling]), the down markers ([OnHostDown], [OnHostBackUp],
    [IsHostDown]), the tracking list ([PrepareTrackingHost],
    [UpdateTrackingList], [SetCheckerHostList]), the uptime analytics
    ([SetExpiry], [RecordUptimeAnalytics]) and the purge loop
    ([UptimePurgeLoop]).

    Go maps are [gmap]s, Go [int]/[int64] are [Z] with the wrap-around
    written out where the code multiplies, nullable pointers are [option]s,
    and every method runs in a small state-and-panic monad over a [World]
    holding the shared Redis contents, the wall clock and the trace of calls
    made to collaborators (logger, store, prober, purger, goroutines). *)

From Stdlib Require Import ZArith String List Ascii Lia.
From stdpp Require Import base option list gmap strings pretty.

Local Open Scope string_scope.
Local Open Scope list_scope.
Local Open Scope Z_scope.

(** ** Go scalars *)

(** A non-nil [error]; a nil error is [None] of [option GoError]. *)
Definition GoError : Type := string.

(** Two's-complement wrap-around of a 64-bit signed integer. *)
Definition int64_wrap (z : Z) : Z := (z + 2 ^ 63) mod 2 ^ 64 - 2 ^ 63.

(** [time.Duration] is an [int64] count of nanoseconds. *)
Definition Duration : Type := Z.
Definition time_Second : Duration := 1000000000.
Definition time_Hour : Duration := 3600 * time_Second.

(** Product of two [Duration]s (or of an [int64] converted to one). *)
Definition Duration_mul (a b : Duration) : Duration := int64_wrap (a * b).

(** [time.Time]: an instant, as nanoseconds since the Unix epoch. *)
Definition Time : Type := Z.
Definition Time_Add (t : Time) (d : Duration) : Time := t + d.

(** The zero [time.Time]: January 1 of year 1, 00:00 UTC. *)
Definition Time_zero : Time := -62135596800 * time_Second.

(** Reading a Go [map[string]string] at a missing key gives the empty string. *)
Definition map_index (m : gmap string string) (k : string) : string :=
  default "" (m !! k).

(** ** Data declared by the file *)

Record UptimeReportData := mkUptimeReportData {
  URL : string;
  RequestTime : Z;
  ResponseCode : Z;
  TCPError : bool;
  ServerError : bool;
  Day : Z;
  Month : Z;
  Year : Z;
  Hour : Z;
  TimeStamp : Time;
  ExpireAt : Time;
  APIID : string;
  OrgID : string
}.

Definition UnHealthyHostMetaDataTargetKey : string := "target_url".
Definition UnHealthyHostMetaDataAPIKey : string := "api_id".
Definition UnHealthyHostMetaDataHostKey : string := "host_name".
Definition PollerCacheKey : string := "PollerActiveInstanceID".
Definition PoolerHostSentinelKeyPrefix : string := "PollerCheckerInstance:".
Definition UptimeAnalytics_KEYNAME : string := "tyk-uptime-analytics".

(** ** Data declared elsewhere in the package, with the fields this file uses *)

(** [HostData]: one target of the prober. *)
Record HostData := mkHostData {
  hd_CheckURL : string;
  hd_ID : string;
  hd_MetaData : gmap string string;
  hd_Method : string;
  hd_Headers : gmap string string;
  hd_Body : string
}.

(** [HostHealthReport]: what the prober hands to the three callbacks. *)
Record HostHealthReport := mkHostHealthReport {
  CheckURL : string;
  MetaData : gmap string string;
  hr_ResponseCode : Z;
  Latency : Z;
  IsTCPError : bool
}.

(** [tykcommon.HostCheckObject]: one entry of an API's check list. *)
Record HostCheckObject := mkHostCheckObject {
  co_CheckURL : string;
  co_Method : string;
  co_Headers : gmap string string;
  co_Body : string
}.

Record UptimeTestsConfig := mkUptimeTestsConfig {
  ExpireUptimeAnalyticsAfter : Z
}.

Record UptimeTests := mkUptimeTests {
  CheckList : list HostCheckObject;
  ut_Config : UptimeTestsConfig
}.

(** [APISpec]: an entry of [ApiSpecRegister]. *)
Record APISpec := mkAPISpec {
  spec_APIID : string;
  spec_OrgID : string;
  spec_UptimeTests : UptimeTests
}.

(** The global [config], restricted to what the manager reads. *)
Record Config := mkConfig {
  EnableUptimeAnalytics : bool;
  TimeWait : Z;
  PurgeDelay : Z
}.

Inductive TykEvent := EVENT_HOSTDOWN | EVENT_HOSTUP.

Record EVENT_HostStatusMeta := mkEVENT_HostStatusMeta {
  Message : string;
  HostInfo : HostHealthReport
}.

(** Handles on collaborators: the manager only holds pointers to them. *)
Inductive RedisClusterStorageManager := RedisHandle.
Inductive HostUptimeChecker := CheckerHandle.
Inductive Purger := PurgerHandle.

Record HostCheckerManager := mkHostCheckerManager {
  Id : string;
  store : option RedisClusterStorageManager;
  checker : option HostUptimeChecker;
  stopLoop : bool;
  pollerStarted : bool;
  unhealthyHostList : gmap string bool;
  currentHostList : gmap string HostData;
  Clean : option Purger
}.

(** ** The world around the manager *)

Inductive Level := Debug | Info | Warning | Error.

(** What a [go] statement starts. *)
Inductive Goroutine :=
| GoFireEvent (spec : option APISpec) (ev : TykEvent) (meta : EVENT_HostStatusMeta)
| GoRecordUptimeAnalytics (report : HostHealthReport)
| GoStartPoller
| GoStopPoller
| GoCheckActivePollerLoop
| GoUptimePurgeLoop.

(** Calls that leave the manager, in program order. *)
Inductive Event :=
| EvLog (lvl : Level) (args : list string)
| EvGetKey (key : string)
| EvSetKey (key value : string) (ttl : Z)
| EvDeleteKey (key : string)
| EvAppendToSet (key value : string)
| EvGo (g : Goroutine)
| EvResetList (hosts : gmap string HostData)
| EvPurgeCache
| EvSleep (d : Duration).

(** The package-level variables [config] and [ApiSpecRegister], the contents
    of the Redis behind the store, the wall clock and the trace. *)
Record World := mkWorld {
  config : Config;
  ApiSpecRegister : gmap string APISpec;
  redis : gmap string (string * Z);
  redis_sets : gmap string (list string);
  now : Time;
  trace : list Event
}.

Definition emit (e : Event) (w : World) : World :=
  mkWorld (config w) (ApiSpecRegister w) (redis w) (redis_sets w) (now w)
          (trace w ++ [e]).

Definition with_redis (r : gmap string (string * Z)) (w : World) : World :=
  mkWorld (config w) (ApiSpecRegister w) r (redis_sets w) (now w) (trace w).

Definition with_sets (s : gmap string (list string)) (w : World) : World :=
  mkWorld (config w) (ApiSpecRegister w) (redis w) s (now w) (trace w).

(** ** The monad: state passing over [World], with Go panics *)

Inductive Outcome (A : Type) :=
| Ret (a : A)
| Panic (msg : string).
Arguments Ret {A} a.
Arguments Panic {A} msg.

Definition M (A : Type) : Type := World -> Outcome A * World.

Definition ret {A} (a : A) : M A := fun w => (Ret a, w).

Definition bind {A B} (m : M A) (k : A -> M B) : M B :=
  fun w => match m w with
           | (Ret a, w') => k a w'
           | (Panic msg, w') => (Panic msg, w')
           end.

Definition panic {A} (msg : string) : M A := fun w => (Panic msg, w).

Definition tell (e : Event) : M unit := fun w => (Ret tt, emit e w).

Declare Scope go_scope.
Delimit Scope go_scope with go.
Notation "'let*' x ':=' c1 'in' c2" := (bind c1 (fun x => c2))
  (at level 10, x pattern, c1 at level 100, c2 at level 200) : go_scope.
Notation "c1 ;; c2" := (bind c1 (fun _ => c2))
  (at level 100, c2 at level 200, right associativity) : go_scope.
Local Open Scope go_scope.

Definition nil_dereference : string :=
  "invalid memory address or nil pointer dereference".

(** Following a pointer. *)
Definition deref {A} (p : option A) : M A :=
  match p with
  | Some a => ret a
  | None => panic nil_dereference
  end.

Definition log (lvl : Level) (args : list string) : M unit :=
  tell (EvLog lvl args).

Definition time_Now : M Time := fun w => (Ret (now w), w).

Definition time_Sleep (d : Duration) : M unit := tell (EvSleep d).

Definition go (g : Goroutine) : M unit := tell (EvGo g).

Definition get_config : M Config := fun w => (Ret (config w), w).

(** Modelled from the spec: the declaration of [ApiSpecRegister] is not in
    this file.  The spec gives the registry as
    [Lookup(tenantId) -> (orgId, config) | NotFound]: a miss yields no spec.
    For Go's [v, found := ApiSpecRegister[k]] over a map of [*APISpec] that is
    the nil pointer together with [found = false]. *)
Definition register_lookup (k : string) : M (option APISpec * bool) :=
  fun w => (Ret (ApiSpecRegister w !! k, bool_decide (is_Some (ApiSpecRegister w !! k))), w).

(** ** The store *)

(** Modelled from the spec: the methods of [RedisClusterStorageManager] are
    not in this file.  The spec gives the store as
    [Get(key) -> value | NotFound], [Set(key, value, ttlSeconds)],
    [Delete(key)] and [AppendToCollection(name, bytes)] with per-key expiry.
    An entry keeps its value and the TTL of the write that made it. *)
Definition store_GetKey (k : string) : M (string * option GoError) :=
  fun w =>
    match redis w !! k with
    | Some (v, _) => (Ret (v, None), emit (EvGetKey k) w)
    | None => (Ret ("", Some "key not found"), emit (EvGetKey k) w)
    end.

Definition store_SetKey (k v : string) (ttl : Z) : M unit :=
  fun w => (Ret tt, emit (EvSetKey k v ttl) (with_redis (<[k := (v, ttl)]> (redis w)) w)).

Definition store_DeleteKey (k : string) : M unit :=
  fun w => (Ret tt, emit (EvDeleteKey k) (with_redis (delete k (redis w)) w)).

Definition store_AppendToSet (k v : string) : M unit :=
  fun w =>
    (Ret tt,
     emit (EvAppendToSet k v)
       (with_sets (<[k := default [] (redis_sets w !! k) ++ [v]]> (redis_sets w)) w)).

(** Modelled from the spec: per-key expiry.  After [secs] seconds an entry
    whose TTL has run out is gone and the others have that much less left. *)
Definition age_entry (secs : Z) (e : string * Z) : option (string * Z) :=
  if snd e <=? secs then None else Some (fst e, snd e - secs).

Definition elapse (secs : Z) (w : World) : World :=
  mkWorld (config w) (ApiSpecRegister w) (omap (age_entry secs) (redis w))
          (redis_sets w) (now w + secs * time_Second) (trace w).

(** A method called through the manager's [store] pointer. *)
Definition on_store {A} (s : option RedisClusterStorageManager) (op : M A) : M A :=
  deref s ;; op.

(** ** AmIPolling *)

Definition AmIPolling (hc : HostCheckerManager) : M bool :=
  match store hc with
  | None =>
      log Error ["[HOST CHECK MANAGER] No storage instance set for uptime tests! Disabling poller..."] ;;
      ret false
  | Some _ =>
      let* (ActiveInstance, err) := on_store (store hc) (store_GetKey PollerCacheKey) in
      match err with
      | Some _ =>
          log Debug ["[HOST CHECK MANAGER] No Primary instance found, assuming control"] ;;
          on_store (store hc) (store_SetKey PollerCacheKey (Id hc) 15) ;;
          ret true
      | None =>
          if String.eqb ActiveInstance (Id hc) then
            log Debug ["[HOST CHECK MANAGER] Primary instance set, I am master"] ;;
            on_store (store hc) (store_SetKey PollerCacheKey (Id hc) 15) ;;
            ret true
          else
            log Debug ["Active Instance is: "; ActiveInstance] ;;
            log Debug ["--- I am: "; Id hc] ;;
            ret false
      end
  end.

(** ** Library functions the file calls *)

(** [net/url.URL], with the field the manager reads. *)
Record url_URL := mkURL {
  Host : string
}.

(** The imported packages: [url.Parse] (a URL, or nil and an error),
    [base64.StdEncoding.DecodeString], [msgpack.Marshal] and the calendar
    accessors of [time.Time]. *)
Class GoLib := {
  url_Parse : string -> url_URL + GoError;
  b64_DecodeString : string -> string + GoError;
  msgpack_Marshal : UptimeReportData -> string + GoError;
  Time_Day : Time -> Z;
  Time_Month : Time -> Z;
  Time_Year : Time -> Z;
  Time_Hour : Time -> Z
}.

(** Go's [(value, error)] pair of a call whose value is a pointer. *)
Definition ptr_err {A} (r : A + GoError) : option A * option GoError :=
  match r with
  | inl a => (Some a, None)
  | inr e => (None, Some e)
  end.

(** Collaborator calls: the prober's [ResetList] and the purger's
    [PurgeCache] are recorded in the trace. *)
Definition checker_ResetList (c : HostUptimeChecker) (hosts : gmap string HostData) : M unit :=
  tell (EvResetList hosts).

Definition Purger_PurgeCache (p : Purger) : M unit := tell EvPurgeCache.

Section Manager.
Context `{GoLib}.

(** ** Start *)

Definition Start (hc : HostCheckerManager) : M unit :=
  if negb (String.eqb (Id hc) "") then
    go GoCheckActivePollerLoop ;;
    let* cfg := get_config in
    if EnableUptimeAnalytics cfg then go GoUptimePurgeLoop else ret tt
  else ret tt.

(** ** The election loop *)

Definition CheckActivePollerLoop_body (hc : HostCheckerManager) : M HostCheckerManager :=
  let* polling := AmIPolling hc in
  let* hc' :=
    (if polling then
       if negb (pollerStarted hc) then
         log Debug ["[HOST CHECK MANAGER] Starting Poller"] ;;
         go GoStartPoller ;;
         ret (mkHostCheckerManager (Id hc) (store hc) (checker hc) (stopLoop hc) true
                (unhealthyHostList hc) (currentHostList hc) (Clean hc))
       else ret hc
     else
       log Debug ["[HOST CHECK MANAGER] New master found, stopping uptime tests"] ;;
       if pollerStarted hc then
         go GoStopPoller ;;
         ret (mkHostCheckerManager (Id hc) (store hc) (checker hc) (stopLoop hc) false
                (unhealthyHostList hc) (currentHostList hc) (Clean hc))
       else ret hc) in
  time_Sleep (10 * time_Second) ;;
  ret hc'.


(** ** The purge loop *)

Inductive LoopState := Returned | Looping.

(** One iteration.  [hc] is the manager as this iteration reads it: the
    election loop writes [pollerStarted] from its own goroutine. *)
Definition UptimePurgeLoop_body (hc : HostCheckerManager) : M unit :=
  (if pollerStarted hc then
     match Clean hc with
     | Some p =>
         log Debug ["[HOST CHECK MANAGER] Purging uptime analytics"] ;;
         Purger_PurgeCache p
     | None => ret tt
     end
   else ret tt) ;;
  let* cfg := get_config in
  time_Sleep (Duration_mul (PurgeDelay cfg) time_Second).

Fixpoint UptimePurgeLoop_iter (view : nat -> HostCheckerManager) (i n : nat) : M unit :=
  match n with
  | O => ret tt
  | S n' => UptimePurgeLoop_body (view i) ;; UptimePurgeLoop_iter view (S i) n'
  end.

(** The loop has no exit: after any number [n] of iterations it is still
    [Looping].  [view i] is the manager seen by iteration [i]. *)
Definition UptimePurgeLoop (view : nat -> HostCheckerManager) (n : nat) : M LoopState :=
  let* cfg := get_config in
  if PurgeDelay cfg =? -1 then
    log Warning ["Analytics purge turned off, you are responsible for Redis storage maintenance."] ;;
    ret Returned
  else
    log Debug ["[HOST CHECK MANAGER] Started analytics purge loop"] ;;
    UptimePurgeLoop_iter view 0 n ;;
    ret Looping.

(** ** Down markers *)

Definition getHostKey (hc : HostCheckerManager) (report : HostHealthReport) : string :=
  PoolerHostSentinelKeyPrefix +:+ map_index (MetaData report) UnHealthyHostMetaDataHostKey.

Definition OnHostReport (hc : HostCheckerManager) (report : HostHealthReport) : M unit :=
  let* cfg := get_config in
  if EnableUptimeAnalytics cfg then go (GoRecordUptimeAnalytics report) else ret tt.

Definition OnHostDown (hc : HostCheckerManager) (report : HostHealthReport) : M unit :=
  log Debug ["Update key: "; getHostKey hc report] ;;
  let* cfg := get_config in
  on_store (store hc) (store_SetKey (getHostKey hc report) "1" (TimeWait cfg)) ;;
  let* (thisSpec, found) :=
    register_lookup (map_index (MetaData report) UnHealthyHostMetaDataAPIKey) in
  if negb found then
    log Warning ["[HOST CHECKER MANAGER] Event can't fire for API that doesn't exist"]
  else
    go (GoFireEvent thisSpec EVENT_HOSTDOWN
          (mkEVENT_HostStatusMeta "Uptime test failed" report)) ;;
    log Warning ["[HOST CHECKER MANAGER] Host is DOWN: "; CheckURL report].

Definition OnHostBackUp (hc : HostCheckerManager) (report : HostHealthReport) : M unit :=
  log Debug ["Delete key: "; getHostKey hc report] ;;
  on_store (store hc) (store_DeleteKey (getHostKey hc report)) ;;
  let* (thisSpec, found) :=
    register_lookup (map_index (MetaData report) UnHealthyHostMetaDataAPIKey) in
  if negb found then
    log Warning ["[HOST CHECKER MANAGER] Event can't fire for API that doesn't exist"]
  else
    go (GoFireEvent thisSpec EVENT_HOSTUP
          (mkEVENT_HostStatusMeta "Uptime test suceeded" report)) ;;
    log Warning ["[HOST CHECKER MANAGER] Host is UP:   "; CheckURL report].

Definition IsHostDown (hc : HostCheckerManager) (thisUrl : string) : M bool :=
  let '(u, err) := ptr_err (url_Parse thisUrl) in
  match err with
  | Some e => log Error [e]
  | None => ret tt
  end ;;
  let* u_ := deref u in
  log Debug ["Key is: "; PoolerHostSentinelKeyPrefix +:+ Host u_] ;;
  let* (_, fErr) :=
    on_store (store hc) (store_GetKey (PoolerHostSentinelKeyPrefix +:+ Host u_)) in
  match fErr with
  | Some _ => ret true
  | None => ret false
  end.

(** ** The tracking list *)

(** The zero [HostData] returned next to an error. *)
Definition HostData_zero : HostData := mkHostData "" "" ∅ "" ∅ "".

Definition PrepareTrackingHost (hc : HostCheckerManager) (checkObject : HostCheckObject)
    (APIID_ : string) : M (HostData * option GoError) :=
  match url_Parse (co_CheckURL checkObject) with
  | inr err =>
      log Error [err] ;;
      ret (HostData_zero, Some err)
  | inl u =>
      match (if 0 <? Z.of_nat (String.length (co_Body checkObject))
             then b64_DecodeString (co_Body checkObject)
             else inl "") with
      | inr loadErr =>
          log Error ["Failed to load blob data: "; loadErr] ;;
          ret (HostData_zero, Some loadErr)
      | inl bodyData =>
          ret (mkHostData
                 (co_CheckURL checkObject)
                 (co_CheckURL checkObject)
                 (<[UnHealthyHostMetaDataHostKey := Host u]>
                    (<[UnHealthyHostMetaDataAPIKey := APIID_]>
                       (<[UnHealthyHostMetaDataTargetKey := co_CheckURL checkObject]> ∅)))
                 (co_Method checkObject)
                 (co_Headers checkObject)
                 bodyData,
               None)
      end
  end.

Definition UpdateTrackingList (hc : HostCheckerManager) (hd : list HostData) : M HostCheckerManager :=
  log Debug ["--- Setting tracking list up"] ;;
  let newHostList :=
    foldl (fun (m : gmap string HostData) host => <[hd_CheckURL host := host]> m) ∅ hd in
  let hc' := mkHostCheckerManager (Id hc) (store hc) (checker hc) (stopLoop hc)
               (pollerStarted hc) (unhealthyHostList hc) newHostList (Clean hc) in
  match checker hc with
  | Some c =>
      log Debug ["Reset initiated"] ;;
      checker_ResetList c newHostList ;;
      ret hc'
  | None => ret hc'
  end.

(** The inner [range spec.UptimeTests.CheckList] of [SetCheckerHostList]. *)
Fixpoint SetCheckerHostList_checks (hc : HostCheckerManager) (APIID_ : string)
    (items : list HostCheckObject) (hostList : list HostData) : M (list HostData) :=
  match items with
  | [] => ret hostList
  | checkItem :: rest =>
      let* (newHostDoc, hdGenErr) := PrepareTrackingHost hc checkItem APIID_ in
      match hdGenErr with
      | None =>
          log Info ["---> Adding uptime test: "; co_CheckURL checkItem] ;;
          SetCheckerHostList_checks hc APIID_ rest (hostList ++ [newHostDoc])
      | Some e =>
          log Warning ["---> Adding uptime test failed: "; co_CheckURL checkItem] ;;
          log Warning ["--------> Error was: "; e] ;;
          SetCheckerHostList_checks hc APIID_ rest hostList
      end
  end.

(** The outer [range ApiSpecRegister]; [specs] lists the register's entries
    in the order this run of the loop visits them (Go leaves it unspecified). *)
Fixpoint SetCheckerHostList_specs (hc : HostCheckerManager) (specs : list APISpec)
    (hostList : list HostData) : M (list HostData) :=
  match specs with
  | [] => ret hostList
  | spec :: rest =>
      let* hostList' :=
        SetCheckerHostList_checks hc (spec_APIID spec)
          (CheckList (spec_UptimeTests spec)) hostList in
      SetCheckerHostList_specs hc rest hostList'
  end.

(** [GlobalHostChecker] is passed in and its new value returned. *)
Definition SetCheckerHostList (GlobalHostChecker : HostCheckerManager)
    (specs : list APISpec) : M HostCheckerManager :=
  log Info ["Loading uptime tests:"] ;;
  let* hostList := SetCheckerHostList_specs GlobalHostChecker specs [] in
  UpdateTrackingList GlobalHostChecker hostList.

(** ** Uptime analytics *)

(** [u.ExpireAt = t]. *)
Definition with_ExpireAt (u : UptimeReportData) (t : Time) : UptimeReportData :=
  mkUptimeReportData (URL u) (RequestTime u) (ResponseCode u) (TCPError u)
    (ServerError u) (Day u) (Month u) (Year u) (Hour u) (TimeStamp u)
    t (APIID u) (OrgID u).

Definition SetExpiry (u : UptimeReportData) (expiresInSeconds : Z) : M UptimeReportData :=
  let expiry := Duration_mul expiresInSeconds time_Second in
  let expiry :=
    if expiresInSeconds =? 0 then (24 * time_Hour) * (365 * 100) else expiry in
  let* t := time_Now in
  let t2 := Time_Add t expiry in
  ret (with_ExpireAt u t2).

(** The struct literal of [RecordUptimeAnalytics], with [serverError]
    derived just before it; [ExpireAt] is not set and starts at the zero time. *)
Definition newAnalyticsRecord (thisReport : HostHealthReport) (thisOrg : string)
    (t : Time) : UptimeReportData :=
  let serverError := if 200 <? hr_ResponseCode thisReport then true else false in
  mkUptimeReportData
    (CheckURL thisReport)
    (int64_wrap (Latency thisReport))
    (hr_ResponseCode thisReport)
    (IsTCPError thisReport)
    serverError
    (Time_Day t) (Time_Month t) (Time_Year t) (Time_Hour t)
    t
    Time_zero
    (map_index (MetaData thisReport) UnHealthyHostMetaDataAPIKey)
    thisOrg.

Definition RecordUptimeAnalytics (hc : HostCheckerManager) (thisReport : HostHealthReport)
    : M (option GoError) :=
  let* (thisSpec, found) :=
    register_lookup (map_index (MetaData thisReport) UnHealthyHostMetaDataAPIKey) in
  let* thisOrg :=
    (if found then (let* s := deref thisSpec in ret (spec_OrgID s)) else ret "") in
  let* t := time_Now in
  let record := newAnalyticsRecord thisReport thisOrg t in
  let* s := deref thisSpec in
  let* record :=
    SetExpiry record (ExpireUptimeAnalyticsAfter (ut_Config (spec_UptimeTests s))) in
  match msgpack_Marshal record with
  | inr err =>
      log Error ["Error encoding uptime data:"; err] ;;
      ret (Some err)
  | inl encoded =>
      on_store (store hc) (store_AppendToSet UptimeAnalytics_KEYNAME encoded) ;;
      ret None
  end.

(** ** Init *)

(** [GenerateCheckerId]; [fresh] is the string of the UUID this call draws
    from [uuid.NewUUID]. *)
Definition GenerateCheckerId (fresh : string) (hc : HostCheckerManager) : HostCheckerManager :=
  mkHostCheckerManager fresh (store hc) (checker hc) (stopLoop hc) (pollerStarted hc)
    (unhealthyHostList hc) (currentHostList hc) (Clean hc).

Definition Init (fresh : string) (hc : HostCheckerManager)
    (store_ : option RedisClusterStorageManager) : HostCheckerManager :=
  GenerateCheckerId fresh
    (mkHostCheckerManager (Id hc) store_ (checker hc) (stopLoop hc) (pollerStarted hc)
       ∅ (currentHostList hc) (Clean hc)).

(** The zero [HostCheckerManager{}]. *)
Definition HostCheckerManager_zero : HostCheckerManager :=
  mkHostCheckerManager "" None None false false ∅ ∅ None.

(** Returns the new [GlobalHostChecker]. *)
Definition InitHostCheckManager (fresh : string) (store_ : option RedisClusterStorageManager)
    (purger : option Purger) : M HostCheckerManager :=
  let GlobalHostChecker := HostCheckerManager_zero in
  let GlobalHostChecker :=
    mkHostCheckerManager (Id GlobalHostChecker) (store GlobalHostChecker)
      (checker GlobalHostChecker) (stopLoop GlobalHostChecker)
      (pollerStarted GlobalHostChecker) (unhealthyHostList GlobalHostChecker)
      (currentHostList GlobalHostChecker) purger in
  let GlobalHostChecker := Init fresh GlobalHostChecker store_ in
  Start GlobalHostChecker ;;
  ret GlobalHostChecker.

End Manager.

(** ** A concrete library, for running the model

    [url_Parse] on absolute [scheme://authority/path] strings,
    [base64.StdEncoding] (RFC 4648 alphabet, padded, CR and LF skipped), an
    encoder that writes a record's fields in order, and the UTC calendar. *)
Module TestLib.

Definition is_control (c : ascii) : bool :=
  let n := nat_of_ascii c in (n <? 32)%nat || (n =? 127)%nat.

Definition is_authority_end (c : ascii) : bool :=
  Ascii.eqb c "/" || Ascii.eqb c "?" || Ascii.eqb c "#".

(** The text after the first ["://"], if any. *)
Fixpoint after_scheme (s : string) : option string :=
  match s with
  | String ":" (String "/" (String "/" rest)) => Some rest
  | String c rest => if is_authority_end c then None else after_scheme rest
  | EmptyString => None
  end.

Fixpoint take_authority (s : string) : string :=
  match s with
  | String c rest => if is_authority_end c then "" else String c (take_authority rest)
  | EmptyString => ""
  end.

(** The part of an authority after its last ["@"]. *)
Fixpoint drop_userinfo (s : string) (acc : string) : string :=
  match s with
  | String "@" rest => drop_userinfo rest rest
  | String _ rest => drop_userinfo rest acc
  | EmptyString => acc
  end.

Definition parse (rawurl : string) : url_URL + GoError :=
  if existsb is_control (list_ascii_of_string rawurl) then
    inr ("parse " +:+ rawurl +:+ ": net/url: invalid control character in URL")
  else
    match rawurl with
    | String ":" _ => inr ("parse " +:+ rawurl +:+ ": missing protocol scheme")
    | _ =>
        match after_scheme rawurl with
        | Some rest =>
            let authority := take_authority rest in
            if existsb (Ascii.eqb " ") (list_ascii_of_string authority) then
              inr ("parse " +:+ rawurl +:+ ": invalid character in host name")
            else inl (mkURL (drop_userinfo authority authority))
        | None => inl (mkURL "")
        end
    end.

(** The value of a character of the base64 alphabet. *)
Definition b64_value (c : ascii) : option N :=
  let n := N_of_ascii c in
  if (65 <=? n)%N && (n <=? 90)%N then Some (n - 65)%N
  else if (97 <=? n)%N && (n <=? 122)%N then Some (n - 71)%N
  else if (48 <=? n)%N && (n <=? 57)%N then Some (n + 4)%N
  else if (n =? 43)%N then Some 62%N
  else if (n =? 47)%N then Some 63%N
  else None.

Definition byte_of (n : N) : ascii := ascii_of_N (n mod 256).

Definition b64_error : GoError := "illegal base64 data".

Fixpoint b64_groups (fuel : nat) (l : list ascii) : list ascii + GoError :=
  match fuel with
  | O => inr b64_error
  | S fuel' =>
      match l with
      | [] => inl []
      | [c1; c2; "="%char; "="%char] =>
          match b64_value c1, b64_value c2 with
          | Some v1, Some v2 => inl [byte_of ((v1 * 4 + v2 / 16))%N]
          | _, _ => inr b64_error
          end
      | [c1; c2; c3; "="%char] =>
          match b64_value c1, b64_value c2, b64_value c3 with
          | Some v1, Some v2, Some v3 =>
              inl [byte_of (v1 * 4 + v2 / 16)%N; byte_of (v2 * 16 + v3 / 4)%N]
          | _, _, _ => inr b64_error
          end
      | c1 :: c2 :: c3 :: c4 :: rest =>
          match b64_value c1, b64_value c2, b64_value c3, b64_value c4 with
          | Some v1, Some v2, Some v3, Some v4 =>
              match b64_groups fuel' rest with
              | inl bytes =>
                  inl (byte_of (v1 * 4 + v2 / 16)%N
                       :: byte_of (v2 * 16 + v3 / 4)%N
                       :: byte_of (v3 * 64 + v4)%N :: bytes)
              | inr e => inr e
              end
          | _, _, _, _ => inr b64_error
          end
      | _ => inr b64_error
      end
  end.

Definition is_newline (c : ascii) : bool :=
  (nat_of_ascii c =? 10)%nat || (nat_of_ascii c =? 13)%nat.

Definition decode (s : string) : string + GoError :=
  let chars := List.filter (fun c => negb (is_newline c)) (list_ascii_of_string s) in
  match b64_groups (S (length chars)) chars with
  | inl bytes => inl (string_of_list_ascii bytes)
  | inr e => inr e
  end.

Definition show_bool (b : bool) : string := if b then "true" else "false".

Definition marshal (r : UptimeReportData) : string + GoError :=
  inl (String.concat "|"
         [URL r; pretty (RequestTime r); pretty (ResponseCode r);
          show_bool (TCPError r); show_bool (ServerError r);
          pretty (Day r); pretty (Month r); pretty (Year r); pretty (Hour r);
          pretty (TimeStamp r); pretty (ExpireAt r); APIID r; OrgID r]).

(** UTC calendar of an instant (days since the epoch turned into a civil
    date on the proleptic Gregorian calendar). *)
Definition epoch_days (t : Time) : Z := t / (24 * time_Hour).

Definition civil (t : Time) : Z * Z * Z :=
  let z := epoch_days t + 719468 in
  let era := z / 146097 in
  let doe := z - era * 146097 in
  let yoe := (doe - doe / 1460 + doe / 36524 - doe / 146096) / 365 in
  let doy := doe - (365 * yoe + yoe / 4 - yoe / 100) in
  let mp := (5 * doy + 2) / 153 in
  let d := doy - (153 * mp + 2) / 5 + 1 in
  let m := if mp <? 10 then mp + 3 else mp - 9 in
  let y := yoe + era * 400 + (if m <=? 2 then 1 else 0) in
  (y, m, d).

Definition day (t : Time) : Z := snd (civil t).
Definition month (t : Time) : Z := snd (fst (civil t)).
Definition year (t : Time) : Z := fst (fst (civil t)).
Definition hour (t : Time) : Z := (t mod (24 * time_Hour)) / time_Hour.

#[export] Instance lib : GoLib := {
  url_Parse := parse;
  b64_DecodeString := decode;
  msgpack_Marshal := marshal;
  Time_Day := day;
  Time_Month := month;
  Time_Year := year;
  Time_Hour := hour
}.

End TestLib.

(** ** Observing a run *)

(** The events a run added to the trace, given the worlds before and after. *)
Definition since (w w' : World) : list Event :=
  drop (length (trace w)) (trace w').

Definition is_log (e : Event) : bool :=
  match e with
  | EvLog _ _ => true
  | _ => false
  end.

Definition is_store_call (e : Event) : bool :=
  match e with
  | EvGetKey _ | EvSetKey _ _ _ | EvDeleteKey _ | EvAppendToSet _ _ => true
  | _ => false
  end.

Definition is_purge (e : Event) : bool :=
  match e with
  | EvPurgeCache => true
  | _ => false
  end.

(** Calls to the store. *)
Definition store_calls (tr : list Event) : list Event := List.filter is_store_call tr.

(** Everything but log lines: store calls, goroutines, prober and purger
    calls, sleeps. *)
Definition effects (tr : list Event) : list Event :=
  List.filter (fun e => negb (is_log e)) tr.

(** Normalises [since w w'] when [w'] is [w] with events emitted on top. *)
Ltac trace_norm :=
  cbn [fst snd trace emit with_redis with_sets redis redis_sets config
       ApiSpecRegister now];
  rewrite <- ?app_assoc; cbn [app].

(** ** Worlds and managers used by the examples *)

Definition example_config : Config := mkConfig true 30 10.

Definition empty_world : World :=
  mkWorld example_config ∅ ∅ ∅ 1477958400000000000 [].

Definition manager (id : string) : HostCheckerManager :=
  mkHostCheckerManager id (Some RedisHandle) None false false ∅ ∅ None.

Definition unconfigured_manager (id : string) : HostCheckerManager :=
  mkHostCheckerManager id None None false false ∅ ∅ None.

Definition example_report : HostHealthReport :=
  mkHostHealthReport "http://api.example.com/path"
    (<[UnHealthyHostMetaDataHostKey := "api.example.com"]>
       (<[UnHealthyHostMetaDataAPIKey := "t1"]>
          (<[UnHealthyHostMetaDataTargetKey := "http://api.example.com/path"]> ∅)))
    500 12 false.

(** The API id a report carries. *)
Definition report_api (report : HostHealthReport) : string :=
  map_index (MetaData report) UnHealthyHostMetaDataAPIKey.

(** ** Outcomes of the election

    What a successful claim or renewal of the lease leaves behind. *)
Definition lease_taken (hc : HostCheckerManager) (w : World) (r : Outcome bool * World) : Prop :=
  fst r = Ret true /\
  redis (snd r) = <[PollerCacheKey := (Id hc, 15)]> (redis w) /\
  store_calls (since w (snd r)) =
    [EvGetKey PollerCacheKey; EvSetKey PollerCacheKey (Id hc) 15].

(** What a refused call leaves behind: one read, no write. *)
Definition lease_refused (w : World) (r : Outcome bool * World) : Prop :=
  fst r = Ret false /\
  redis (snd r) = redis w /\
  store_calls (since w (snd r)) = [EvGetKey PollerCacheKey].

(** The world after instance [A] took the free lease. *)
Definition world_led_by_A : World := snd (AmIPolling (manager "A") empty_world).

(** ** Reading the tracking list *)

(** The last descriptor of [hd] whose check URL is [url]. *)
Definition last_with_url (hd : list HostData) (url : string) : option HostData :=
  last (List.filter (fun h => String.eqb (hd_CheckURL h) url) hd).

(** The check configurations [SetCheckerHostList] goes through, each with
    the id of its API, in the order of the visit. *)
Definition check_configs (specs : list APISpec) : list (HostCheckObject * string) :=
  flat_map (fun spec => (fun c => (c, spec_APIID spec)) <$> CheckList (spec_UptimeTests spec))
           specs.

(** "---> Adding uptime test failed": the report of a skipped configuration. *)
Definition is_failure_report (e : Event) : bool :=
  match e with
  | EvLog Warning (msg :: _) => String.eqb msg "---> Adding uptime test failed: "
  | _ => false
  end.

Definition failure_reports (tr : list Event) : nat :=
  length (List.filter is_failure_report tr).

Section Configurations.
Context `{GoLib}.

(** A check URL that [url.Parse] refuses. *)
Definition bad_url (c : HostCheckObject) : bool :=
  match url_Parse (co_CheckURL c) with
  | inr _ => true
  | inl _ => false
  end.

(** A body that is present and is not valid base64. *)
Definition bad_body (c : HostCheckObject) : bool :=
  (0 <? Z.of_nat (String.length (co_Body c))) &&
  match b64_DecodeString (co_Body c) with
  | inr _ => true
  | inl _ => false
  end.

(** The descriptor [PrepareTrackingHost] returns for a configuration, or
    [None] when it returns an error.  The world [w] it runs in only
    receives log lines. *)
Definition prepared (hc : HostCheckerManager) (w : World)
    (c : HostCheckObject * string) : option HostData :=
  match fst (PrepareTrackingHost hc (fst c) (snd c) w) with
  | Ret (d, None) => Some d
  | _ => None
  end.

Definition kept (hc : HostCheckerManager) (w : World)
    (c : HostCheckObject * string) : bool :=
  match prepared hc w c with
  | Some _ => true
  | None => false
  end.

(** The number of configurations the loop does not keep. *)
Definition skipped (hc : HostCheckerManager) (w : World)
    (cs : list (HostCheckObject * string)) : nat :=
  length (List.filter (fun c => negb (kept hc w c)) cs).

(** What the spec asks of the descriptor of a configuration [c] of an
    API: the check URL as URL and as id, the method and the headers of the
    configuration, the body base64-decoded when there is one, and as
    metadata the target URL, the API id and the host of the parsed URL. *)
Definition describes (c : HostCheckObject * string) (d : HostData) : Prop :=
  hd_CheckURL d = co_CheckURL (fst c) /\
  hd_ID d = co_CheckURL (fst c) /\
  hd_Method d = co_Method (fst c) /\
  hd_Headers d = co_Headers (fst c) /\
  match co_Body (fst c) with
  | EmptyString => hd_Body d = ""
  | String _ _ => b64_DecodeString (co_Body (fst c)) = inl (hd_Body d)
  end /\
  exists u,
    url_Parse (co_CheckURL (fst c)) = inl u /\
    hd_MetaData d =
      list_to_map [(UnHealthyHostMetaDataTargetKey, co_CheckURL (fst c));
                   (UnHealthyHostMetaDataAPIKey, snd c);
                   (UnHealthyHostMetaDataHostKey, Host u)].

End Configurations.

(** Five configurations of one API; the third has a body that is not base64. *)
Definition five_checks : list HostCheckObject :=
  [ mkHostCheckObject "http://google.com:3000/" "GET" ∅ "";
    mkHostCheckObject "http://posttestserver.com/post.php" "POST"
      (<["this" := "that"]> ∅)
      "VEhJUyBJUyBBIEJPRFkgT0JKRUNUIFRFWFQNCg0KTW9yZSBzdHVmZiBoZXJl";
    mkHostCheckObject "http://api.example.com/health" "POST" ∅ "not*base64";
    mkHostCheckObject "http://api.example.com/ping" "GET" ∅ "";
    mkHostCheckObject "http://api.example.com/path" "GET" ∅ "aGVsbG8=" ].

Definition five_checks_spec : APISpec :=
  mkAPISpec "t1" "org1" (mkUptimeTests five_checks (mkUptimeTestsConfig 3600)).

(** ** Expiry and analytics *)

(** A hundred years of 365 days, and a bound on any ten calendar years. *)
Definition hundred_years : Duration := 100 * 365 * 24 * time_Hour.
Definition ten_years : Duration := 10 * 366 * 24 * time_Hour.

(** The largest number of whole seconds whose nanoseconds fit an [int64]. *)
Definition max_seconds : Z := 9223372036.

Definition blank_record : UptimeReportData :=
  mkUptimeReportData "" 0 0 false false 0 0 0 0 0 0 "" "".

(** A world whose register knows the API [t1] of [example_report]. *)
Definition registered_world : World :=
  mkWorld example_config (<["t1" := five_checks_spec]> ∅) ∅ ∅ 1477958400000000000 [].

(** ** The purge loop, iteration by iteration *)

(** What iteration [i] does besides logging: a purge when the manager it
    sees has [pollerStarted] set and a purger, then the sleep. *)
Definition purge_iteration (w : World) (hc : HostCheckerManager) : list Event :=
  (if pollerStarted hc && bool_decide (is_Some (Clean hc)) then [EvPurgeCache] else [])
  ++ [EvSleep (Duration_mul (PurgeDelay (config w)) time_Second)].

(** A manager that is leader in the iterations of even index only. *)
Definition alternating_view (i : nat) : HostCheckerManager :=
  mkHostCheckerManager "A" (Some RedisHandle) None false (Nat.even i) ∅ ∅
    (Some PurgerHandle).

Definition purge_disabled_world : World :=
  mkWorld (mkConfig true 30 (-1)) ∅ ∅ ∅ 1477958400000000000 [].

(** ** Elections, seen from outside *)

(** The goroutines a run started, in order. *)
Definition goroutines (tr : list Event) : list Goroutine :=
  omap (fun e => match e with EvGo g => Some g | _ => None end) tr.

(** The sleeps of a run, in order. *)
Definition sleeps (tr : list Event) : list Duration :=
  omap (fun e => match e with EvSleep d => Some d | _ => None end) tr.

(** The id stored under the lease key, if any. *)
Definition lease_holder (w : World) : option string :=
  fst <$> redis w !! PollerCacheKey.

(** Whether the lease is free or already this manager's. *)
Definition lease_open_to (hc : HostCheckerManager) (w : World) : bool :=
  match store hc, lease_holder w with
  | None, _ => false
  | Some _, None => true
  | Some _, Some v => String.eqb v (Id hc)
  end.

(** The managers of [hcs] call [AmIPolling] one after the other. *)
Fixpoint polls (hcs : list HostCheckerManager) : M (list bool) :=
  match hcs with
  | [] => ret []
  | hc :: rest =>
      let* b := AmIPolling hc in
      let* bs := polls rest in
      ret (b :: bs)
  end.

(** Two worlds that differ at most in Redis keys and in the trace. *)
Definition same_surroundings (w w' : World) : Prop :=
  config w' = config w /\ ApiSpecRegister w' = ApiSpecRegister w /\
  redis_sets w' = redis_sets w /\ now w' = now w.

(** The manager with its [pollerStarted] flag set to [b]. *)
Definition with_pollerStarted (hc : HostCheckerManager) (b : bool) : HostCheckerManager :=
  mkHostCheckerManager (Id hc) (store hc) (checker hc) (stopLoop hc) b
    (unhealthyHostList hc) (currentHostList hc) (Clean hc).

(** The goroutine an election tick starts: the poller when the manager
    becomes leader, its stop when it ceases to be, none otherwise. *)
Definition transition (was_started leader : bool) : list Goroutine :=
  match was_started, leader with
  | false, true => [GoStartPoller]
  | true, false => [GoStopPoller]
  | _, _ => []
  end.



(** ** A check, its descriptor and a report about it *)

Definition example_check : HostCheckObject :=
  mkHostCheckObject "http://api.example.com/path" "GET" ∅ "".

Definition example_descriptor : HostData :=
  mkHostData "http://api.example.com/path" "http://api.example.com/path"
    (MetaData example_report) "GET" ∅ "".

(** The map [UpdateTrackingList] builds from a list of descriptors. *)
Definition tracking_map (hd : list HostData) : gmap string HostData :=
  foldl (fun (m : gmap string HostData) host => <[hd_CheckURL host := host]> m) ∅ hd.

(** Two APIs with one valid check each. *)
Definition spec_one : APISpec :=
  mkAPISpec "t1" "org1"
    (mkUptimeTests [mkHostCheckObject "http://one.example/" "GET" ∅ ""]
       (mkUptimeTestsConfig 3600)).

Definition spec_two : APISpec :=
  mkAPISpec "t2" "org2"
    (mkUptimeTests [mkHostCheckObject "http://two.example/" "GET" ∅ ""]
       (mkUptimeTestsConfig 0)).

Definition other_descriptor : HostData :=
  mkHostData "http://other.example/" "http://other.example/" ∅ "POST" ∅ "body".

(** The descriptor of the last of [five_checks], whose body decodes to
    ["hello"]. *)
Definition hello_descriptor : HostData :=
  mkHostData "http://api.example.com/path" "http://api.example.com/path"
    (MetaData example_report) "GET" ∅ "hello".

(** * Properties *)

(** ** Runs only append to the trace *)

Lemma since_app (w w' : World) (evs : list Event) :
  trace w' = trace w ++ evs -> since w w' = evs.
Proof.
  intros Heq. unfold since. rewrite Heq. apply drop_app_length.
Qed.

Lemma trace_emit (e : Event) (w : World) : trace (emit e w) = trace w ++ [e].
Proof. reflexivity. Qed.

Lemma since_emit1 (w : World) (e : Event) : since w (emit e w) = [e].
Proof. by apply since_app. Qed.

Lemma effects_app (a b : list Event) : effects (a ++ b) = effects a ++ effects b.
Proof. apply List.filter_app. Qed.

Lemma failure_reports_app (a b : list Event) :
  failure_reports (a ++ b) = (failure_reports a + failure_reports b)%nat.
Proof. unfold failure_reports. by rewrite List.filter_app, length_app. Qed.

(** ** The store *)

(** A read fails exactly when the key is absent. *)
Lemma store_GetKey_err (k : string) (w : World) :
  exists v err, fst (store_GetKey k w) = Ret (v, err) /\
                (err = None <-> is_Some (redis w !! k)).
Proof.
  unfold store_GetKey. destruct (redis w !! k) as [[v ttl]|] eqn:E; cbn.
  - exists v, None. split; [done|]. split; eauto.
  - exists "", (Some "key not found"). split; [done|].
    split; [done|]. intros [x Hx]. discriminate.
Qed.

(** ** AmIPolling *)

(** C10: with no store configured [AmIPolling] answers [false] after one
    error log line; it makes no call to a store and the Redis contents are
    untouched. *)
Theorem AmIPolling_nil_store (hc : HostCheckerManager) (w : World) :
  store hc = None ->
  exists w',
    AmIPolling hc w = (Ret false, w') /\
    redis w' = redis w /\
    store_calls (since w w') = [] /\
    effects (since w w') = [].
Proof.
  intros Hs. unfold AmIPolling. rewrite Hs.
  eexists. split; [reflexivity|].
  split; [reflexivity|].
  rewrite since_emit1. split; reflexivity.
Qed.

Lemma AmIPolling_nil_store_witness :
  exists w',
    AmIPolling (unconfigured_manager "A") empty_world = (Ret false, w') /\
    redis w' = redis empty_world /\
    store_calls (since empty_world w') = [] /\
    effects (since empty_world w') = [].
Proof.
  apply (AmIPolling_nil_store (unconfigured_manager "A") empty_world).
  reflexivity.
Defined.

(** C2: with a store configured, [AmIPolling] reads the lease key; when the
    key is absent (the read fails) it writes its own id with TTL 15 and
    answers [true]; when the key holds its own id it writes it again with
    TTL 15 and answers [true]; when the key holds another id it answers
    [false] and writes nothing. *)
Theorem AmIPolling_lease (hc : HostCheckerManager) (s : RedisClusterStorageManager)
    (w : World) :
  store hc = Some s ->
  match redis w !! PollerCacheKey with
  | None => lease_taken hc w (AmIPolling hc w)
  | Some (v, _) =>
      if decide (v = Id hc) then lease_taken hc w (AmIPolling hc w)
      else lease_refused w (AmIPolling hc w)
  end.
Proof.
  intros Hs. unfold AmIPolling. rewrite Hs.
  unfold bind, on_store, deref, store_GetKey, ret. cbn.
  destruct (redis w !! PollerCacheKey) as [[v ttl]|] eqn:E; cbn.
  - destruct (decide (v = Id hc)) as [->|Hne].
    + rewrite String.eqb_refl. cbn.
      split; [done|]. split; [done|].
      erewrite since_app; [|trace_norm; reflexivity]. reflexivity.
    + apply String.eqb_neq in Hne. rewrite Hne. cbn.
      split; [done|]. split; [done|].
      erewrite since_app; [|trace_norm; reflexivity]. reflexivity.
  - split; [done|]. split; [done|].
    erewrite since_app; [|trace_norm; reflexivity]. reflexivity.
Qed.

Lemma AmIPolling_lease_witness :
  lease_taken (manager "A") empty_world (AmIPolling (manager "A") empty_world) /\
  lease_taken (manager "A") world_led_by_A (AmIPolling (manager "A") world_led_by_A) /\
  lease_refused world_led_by_A (AmIPolling (manager "B") world_led_by_A).
Proof.
  split; [|split].
  - exact (AmIPolling_lease (manager "A") RedisHandle empty_world eq_refl).
  - exact (AmIPolling_lease (manager "A") RedisHandle world_led_by_A eq_refl).
  - exact (AmIPolling_lease (manager "B") RedisHandle world_led_by_A eq_refl).
Defined.

(** The election scenario of the spec: [A] claims the empty lease, [B] is
    refused right after, and once 16 seconds have passed without a renewal
    the key is gone and [B] claims it. *)
Example lease_scenario :
  fst (AmIPolling (manager "A") empty_world) = Ret true /\
  redis world_led_by_A !! PollerCacheKey = Some ("A", 15) /\
  fst (AmIPolling (manager "B") world_led_by_A) = Ret false /\
  redis (elapse 16 world_led_by_A) !! PollerCacheKey = None /\
  fst (AmIPolling (manager "B") (elapse 16 world_led_by_A)) = Ret true /\
  redis (snd (AmIPolling (manager "B") (elapse 16 world_led_by_A))) !! PollerCacheKey
    = Some ("B", 15).
Proof. vm_compute. repeat split. Qed.

(** ** Down markers *)

Section DownMarkers.
Context `{GoLib}.

(** [OnHostBackUp] deletes the marker, whatever the register says. *)
Lemma OnHostBackUp_clears_host (hc : HostCheckerManager) (s : RedisClusterStorageManager)
    (report : HostHealthReport) (w : World) :
  store hc = Some s ->
  exists w',
    OnHostBackUp hc report w = (Ret tt, w') /\
    redis w' = delete (getHostKey hc report) (redis w).
Proof.
  intros Hs. unfold OnHostBackUp. rewrite Hs.
  unfold bind, on_store, deref, store_DeleteKey, register_lookup, log, go, tell, ret. cbn.
  destruct (bool_decide _); cbn; eexists; split; reflexivity.
Qed.

(** What [IsHostDown] computes on a URL that parses: [true] exactly when
    the marker of the URL's host is absent. *)
Lemma IsHostDown_parsed (hc : HostCheckerManager) (s : RedisClusterStorageManager)
    (thisUrl : string) (u : url_URL) (w : World) :
  store hc = Some s ->
  url_Parse thisUrl = inl u ->
  fst (IsHostDown hc thisUrl w) =
    Ret (bool_decide (redis w !! (PoolerHostSentinelKeyPrefix +:+ Host u) = None)).
Proof.
  intros Hs Hu. unfold IsHostDown. rewrite Hu, Hs.
  unfold bind, on_store, deref, store_GetKey, log, tell, ret. cbn.
  destruct (redis w !! _) as [[v ttl]|] eqn:E; cbn; reflexivity.
Qed.

Lemma OnHostDown_redis (hc : HostCheckerManager) (s : RedisClusterStorageManager)
    (report : HostHealthReport) (w : World) :
  store hc = Some s ->
  redis (snd (OnHostDown hc report w))
    = <[getHostKey hc report := ("1", TimeWait (config w))]> (redis w).
Proof.
  intros Hs. unfold OnHostDown. rewrite Hs.
  unfold bind, on_store, deref, store_SetKey, register_lookup, get_config, log, go,
    tell, ret. cbn.
  destruct (bool_decide _); reflexivity.
Qed.

(** For every report and every URL with the report's host: right after
    [OnHostDown] the answer of [IsHostDown] is [false], and right after
    [OnHostBackUp] it is [true]. *)
Lemma IsHostDown_after_callbacks (hc : HostCheckerManager) (s : RedisClusterStorageManager)
    (report : HostHealthReport) (thisUrl : string) (u : url_URL) (w : World) :
  store hc = Some s ->
  url_Parse thisUrl = inl u ->
  Host u = map_index (MetaData report) UnHealthyHostMetaDataHostKey ->
  fst (IsHostDown hc thisUrl (snd (OnHostDown hc report w))) = Ret false /\
  fst (IsHostDown hc thisUrl (snd (OnHostBackUp hc report w))) = Ret true.
Proof.
  intros Hs Hu Hhost. split.
  - rewrite (IsHostDown_parsed hc s thisUrl u _ Hs Hu), (OnHostDown_redis hc s _ _ Hs).
    unfold getHostKey. rewrite <- Hhost, lookup_insert_eq. reflexivity.
  - rewrite (IsHostDown_parsed hc s thisUrl u _ Hs Hu).
    destruct (OnHostBackUp_clears_host hc s report w Hs) as (w' & -> & Hredis).
    cbn [snd]. rewrite Hredis. unfold getHostKey. rewrite <- Hhost, lookup_delete_eq.
    reflexivity.
Qed.

(** On a URL that does not parse, [u] is nil and reading [u.Host] panics
    after the error was logged. *)
Lemma IsHostDown_unparsed (hc : HostCheckerManager) (thisUrl : string) (e : GoError)
    (w : World) :
  url_Parse thisUrl = inr e ->
  IsHostDown hc thisUrl w = (Panic nil_dereference, emit (EvLog Error [e]) w).
Proof.
  intros Hu. unfold IsHostDown. rewrite Hu. reflexivity.
Qed.

End DownMarkers.


(** C1: the spec's scenario, run on the code.  After [OnHostDown] the
    marker of [api.example.com] is in Redis, and [IsHostDown] of a URL with
    that host answers [false]; after [OnHostBackUp] the marker is gone and
    [IsHostDown] answers [true].  The answer is the negation of "the marker
    is present". *)
Theorem IsHostDown_scenario :
  let hc := manager "A" in
  let key := "PollerCheckerInstance:api.example.com" in
  let w1 := snd (OnHostDown hc example_report empty_world) in
  let w2 := snd (OnHostBackUp hc example_report w1) in
  redis w1 !! key = Some ("1", 30) /\
  fst (IsHostDown (H := TestLib.lib) hc "http://api.example.com/path" w1) = Ret false /\
  redis w2 !! key = None /\
  fst (IsHostDown (H := TestLib.lib) hc "http://api.example.com/path" w2) = Ret true.
Proof. vm_compute. repeat split. Qed.

(** ** The tracking list *)

Lemma last_filter_snoc {A} (P : A -> bool) (l : list A) (x : A) :
  last (List.filter P (l ++ [x])) =
    if P x then Some x else last (List.filter P l).
Proof.
  rewrite List.filter_app. cbn. destruct (P x).
  - apply last_snoc.
  - by rewrite app_nil_r.
Qed.

(** Folding the descriptors into a map: a key reads the last descriptor
    with that URL, or what the initial map had when there is none. *)
Lemma foldl_insert_lookup (hd : list HostData) (m0 : gmap string HostData) (url : string) :
  foldl (fun (m : gmap string HostData) host => <[hd_CheckURL host := host]> m) m0 hd !! url
  = match last_with_url hd url with
    | Some h => Some h
    | None => m0 !! url
    end.
Proof.
  unfold last_with_url.
  induction hd as [|h hd IH] using rev_ind; [reflexivity|].
  rewrite foldl_app, last_filter_snoc. cbn.
  destruct (String.eqb_spec (hd_CheckURL h) url) as [->|Hne].
  - by rewrite lookup_insert_eq.
  - by rewrite lookup_insert_ne.
Qed.

Lemma foldl_insert_dom (hd : list HostData) :
  dom (foldl (fun (m : gmap string HostData) host => <[hd_CheckURL host := host]> m) ∅ hd)
  = list_to_set (hd_CheckURL <$> hd).
Proof.
  induction hd as [|h hd IH] using rev_ind; [cbn; apply dom_empty_L|].
  rewrite foldl_app. cbn. rewrite dom_insert_L, IH, fmap_app, list_to_set_app_L.
  cbn. rewrite (right_id_L ∅ (∪)). apply (comm_L (∪)).
Qed.

Lemma UpdateTrackingList_total (hc : HostCheckerManager) (hd : list HostData) (w : World) :
  exists hc' w', UpdateTrackingList hc hd w = (Ret hc', w').
Proof.
  unfold UpdateTrackingList, bind, log, checker_ResetList, tell, ret.
  destruct (checker hc); cbn; eexists; eexists; reflexivity.
Qed.

(** [UpdateTrackingList] reports no failure. *)
Lemma UpdateTrackingList_trace (hc hc' : HostCheckerManager) (hd : list HostData)
    (w w' : World) :
  UpdateTrackingList hc hd w = (Ret hc', w') ->
  exists evs, trace w' = trace w ++ evs /\ failure_reports evs = 0%nat.
Proof.
  unfold UpdateTrackingList, bind, log, checker_ResetList, tell, ret.
  destruct (checker hc); cbn; intros [= <- <-]; eexists;
    (split; [trace_norm; reflexivity|reflexivity]).
Qed.

(** C6: [UpdateTrackingList] always completes; the manager's host list
    afterwards reads, at every URL, the last descriptor of the input with
    that check URL and nothing else (its keys are the input's URLs, whatever
    the previous list held); the other fields are unchanged; and exactly
    when a checker is set, the new list is passed to its [ResetList]. *)
Theorem UpdateTrackingList_replaces (hc : HostCheckerManager) (hd : list HostData)
    (w : World) :
  exists hc' w',
    UpdateTrackingList hc hd w = (Ret hc', w') /\
    (forall url, currentHostList hc' !! url = last_with_url hd url) /\
    dom (currentHostList hc') = list_to_set (hd_CheckURL <$> hd) /\
    effects (since w w') =
      match checker hc with
      | Some _ => [EvResetList (currentHostList hc')]
      | None => []
      end /\
    (Id hc', store hc', checker hc', pollerStarted hc')
      = (Id hc, store hc, checker hc, pollerStarted hc).
Proof.
  unfold UpdateTrackingList, bind, log, checker_ResetList, tell, ret. cbn.
  destruct (checker hc) as [c|] eqn:Hc; cbn;
    eexists; eexists; (split; [reflexivity|]); cbn;
    (split; [intros url; rewrite foldl_insert_lookup, lookup_empty;
             by destruct (last_with_url hd url)|]);
    (split; [apply foldl_insert_dom|]);
    (split; [|reflexivity]);
    (erewrite since_app; [|trace_norm; reflexivity]); reflexivity.
Qed.

(** A list with a repeated URL replaces a previous list: the later
    descriptor of the repeated URL is kept and the old entry is gone. *)
Example UpdateTrackingList_duplicates :
  let old := mkHostData "http://old.example/" "old" ∅ "GET" ∅ "" in
  let a1 := mkHostData "http://a.example/" "first" ∅ "GET" ∅ "" in
  let b := mkHostData "http://b.example/" "b" ∅ "GET" ∅ "" in
  let a2 := mkHostData "http://a.example/" "second" ∅ "POST" ∅ "" in
  let hc := mkHostCheckerManager "A" (Some RedisHandle) (Some CheckerHandle) false true ∅
              (<["http://old.example/" := old]> ∅) None in
  match UpdateTrackingList hc [a1; b; a2] empty_world with
  | (Ret hc', w') =>
      currentHostList hc' !! "http://a.example/" = Some a2 /\
      currentHostList hc' !! "http://b.example/" = Some b /\
      currentHostList hc' !! "http://old.example/" = None /\
      size (currentHostList hc') = 2%nat /\
      effects (since empty_world w') = [EvResetList (currentHostList hc')]
  | (Panic _, _) => False
  end.
Proof. vm_compute. repeat split. Qed.

Section ActiveSet.
Context `{GoLib}.

(** [PrepareTrackingHost] returns the same pair in every world, and adds
    nothing but log lines (none of them a failure report). *)
Lemma PrepareTrackingHost_run (hc : HostCheckerManager) (c : HostCheckObject)
    (id : string) (w w0 : World) :
  exists w' evs,
    PrepareTrackingHost hc c id w = (fst (PrepareTrackingHost hc c id w0), w') /\
    trace w' = trace w ++ evs /\
    effects evs = [] /\
    failure_reports evs = 0%nat.
Proof.
  unfold PrepareTrackingHost.
  destruct (url_Parse (co_CheckURL c)) as [u|e].
  - destruct (if 0 <? Z.of_nat (String.length (co_Body c))
              then b64_DecodeString (co_Body c) else inl "") as [body|e].
    + exists w, []. rewrite app_nil_r. done.
    + eexists; eexists. split; [reflexivity|]. split; [apply trace_emit|]. done.
  - eexists; eexists. split; [reflexivity|]. split; [apply trace_emit|]. done.
Qed.

(** The returned error is nil exactly when neither the URL nor the body is
    malformed. *)
Lemma kept_spec (hc : HostCheckerManager) (w : World) (c : HostCheckObject * string) :
  kept hc w c = negb (bad_url (fst c) || bad_body (fst c)).
Proof.
  unfold kept, prepared, PrepareTrackingHost, bad_url, bad_body.
  destruct (url_Parse (co_CheckURL (fst c))) as [u|e]; [|reflexivity].
  destruct (0 <? Z.of_nat (String.length (co_Body (fst c)))); [|reflexivity].
  destruct (b64_DecodeString (co_Body (fst c))); reflexivity.
Qed.

Lemma prepared_world (hc : HostCheckerManager) (w w0 : World)
    (c : HostCheckObject * string) :
  prepared hc w c = prepared hc w0 c.
Proof.
  unfold prepared.
  destruct (PrepareTrackingHost_run hc (fst c) (snd c) w w0) as (w' & evs & -> & _).
  reflexivity.
Qed.

Lemma PrepareTrackingHost_returns (hc : HostCheckerManager) (c : HostCheckObject)
    (id : string) (w : World) :
  exists d err, fst (PrepareTrackingHost hc c id w) = Ret (d, err).
Proof.
  unfold PrepareTrackingHost.
  destruct (url_Parse (co_CheckURL c)) as [u|e]; [|by eexists; eexists].
  destruct (if 0 <? Z.of_nat (String.length (co_Body c))
            then b64_DecodeString (co_Body c) else inl ""); by eexists; eexists.
Qed.

Lemma skipped_cons (hc : HostCheckerManager) (w : World) (c : HostCheckObject * string)
    (cs : list (HostCheckObject * string)) :
  skipped hc w (c :: cs) = ((if kept hc w c then 0 else 1) + skipped hc w cs)%nat.
Proof. unfold skipped. cbn. by destruct (kept hc w c). Qed.

(** The inner loop appends the descriptors of the configurations that
    prepare without error, in order, and reports each of the others once. *)
Lemma SetCheckerHostList_checks_run (hc : HostCheckerManager) (w0 : World) (id : string)
    (items : list HostCheckObject) :
  forall (acc : list HostData) (w : World),
  exists w' evs,
    SetCheckerHostList_checks hc id items acc w
      = (Ret (acc ++ omap (prepared hc w0) ((fun c => (c, id)) <$> items)), w') /\
    trace w' = trace w ++ evs /\
    effects evs = [] /\
    failure_reports evs = skipped hc w0 ((fun c => (c, id)) <$> items).
Proof.
  induction items as [|c items IH]; intros acc w.
  - exists w, []. cbn. by rewrite !app_nil_r.
  - cbn [SetCheckerHostList_checks]. unfold bind at 1.
    destruct (PrepareTrackingHost_run hc c id w w0) as (w1 & evs1 & Hrun & Ht1 & He1 & Hf1).
    rewrite Hrun.
    destruct (PrepareTrackingHost_returns hc c id w0) as (d & err & Hret).
    rewrite Hret, fmap_cons, skipped_cons. cbn [omap list_omap].
    assert (Hp : prepared hc w0 (c, id) =
                 match err with Some _ => None | None => Some d end).
    { unfold prepared. cbn [fst snd]. rewrite Hret. by destruct err. }
    unfold kept. rewrite Hp.
    destruct err as [e|].
    + unfold bind at 1 2, log, tell.
      destruct (IH acc (emit (EvLog Warning ["--------> Error was: "; e])
                          (emit (EvLog Warning ["---> Adding uptime test failed: ";
                                                co_CheckURL c]) w1)))
        as (w' & evs & Hloop & Ht & He & Hf).
      rewrite Hloop.
      exists w', (evs1 ++ [EvLog Warning ["---> Adding uptime test failed: "; co_CheckURL c];
                           EvLog Warning ["--------> Error was: "; e]] ++ evs).
      split; [reflexivity|].
      split.
      { rewrite Ht. cbn [trace emit]. rewrite Ht1, <- !app_assoc. reflexivity. }
      rewrite !effects_app, !failure_reports_app, He1, He, Hf1, Hf.
      split; reflexivity.
    + unfold bind at 1, log, tell.
      destruct (IH (acc ++ [d]) (emit (EvLog Info ["---> Adding uptime test: "; co_CheckURL c]) w1))
        as (w' & evs & Hloop & Ht & He & Hf).
      rewrite Hloop.
      exists w', (evs1 ++ [EvLog Info ["---> Adding uptime test: "; co_CheckURL c]] ++ evs).
      split; [by rewrite <- app_assoc|].
      split.
      { rewrite Ht. cbn [trace emit]. rewrite Ht1, <- !app_assoc. reflexivity. }
      rewrite !effects_app, !failure_reports_app, He1, He, Hf1, Hf.
      split; reflexivity.
Qed.

Lemma SetCheckerHostList_specs_run (hc : HostCheckerManager) (w0 : World)
    (specs : list APISpec) :
  forall (acc : list HostData) (w : World),
  exists w' evs,
    SetCheckerHostList_specs hc specs acc w
      = (Ret (acc ++ omap (prepared hc w0) (check_configs specs)), w') /\
    trace w' = trace w ++ evs /\
    effects evs = [] /\
    failure_reports evs = skipped hc w0 (check_configs specs).
Proof.
  induction specs as [|spec specs IH]; intros acc w.
  - exists w, []. cbn. by rewrite !app_nil_r.
  - cbn [SetCheckerHostList_specs check_configs flat_map]. unfold bind at 1.
    destruct (SetCheckerHostList_checks_run hc w0 (spec_APIID spec)
                (CheckList (spec_UptimeTests spec)) acc w)
      as (w1 & evs1 & Hrun & Ht1 & He1 & Hf1).
    rewrite Hrun.
    destruct (IH (acc ++ omap (prepared hc w0)
                    ((fun c => (c, spec_APIID spec)) <$> CheckList (spec_UptimeTests spec))) w1)
      as (w' & evs & Hloop & Ht & He & Hf).
    rewrite Hloop. exists w', (evs1 ++ evs).
    split; [by rewrite omap_app, app_assoc|].
    split; [by rewrite Ht, Ht1, app_assoc|].
    rewrite !effects_app, !failure_reports_app, He1, He, Hf1, Hf.
    split; [reflexivity|].
    unfold skipped. by rewrite List.filter_app, length_app.
Qed.

(** Kept and skipped configurations add up to the batch. *)
Lemma kept_plus_skipped (hc : HostCheckerManager) (w : World)
    (cs : list (HostCheckObject * string)) :
  (length (omap (prepared hc w) cs) + skipped hc w cs = length cs)%nat.
Proof.
  unfold skipped, kept.
  induction cs as [|c cs IH]; [reflexivity|].
  cbn. destruct (prepared hc w c); cbn; lia.
Qed.

(** When every URL parses, the skipped configurations are those with a bad body. *)
Lemma skipped_bad_bodies (hc : HostCheckerManager) (w : World)
    (cs : list (HostCheckObject * string)) :
  Forall (fun c => bad_url (fst c) = false) cs ->
  skipped hc w cs = length (List.filter (fun c => bad_body (fst c)) cs).
Proof.
  unfold skipped. induction 1 as [|c cs Hc Hcs IH]; [reflexivity|].
  cbn. rewrite kept_spec, Hc, negb_involutive. cbn.
  destruct (bad_body (fst c)); cbn; by rewrite IH.
Qed.

End ActiveSet.

(** ** Expiry *)

(** In the range of seconds whose nanosecond count fits an [int64], the
    multiplication does not wrap. *)
Lemma Duration_mul_seconds (x : Z) :
  - max_seconds <= x <= max_seconds -> Duration_mul x time_Second = x * time_Second.
Proof.
  unfold Duration_mul, int64_wrap, max_seconds, time_Second. intros Hx.
  rewrite Z.mod_small; lia.
Qed.

(** C3, as the code has it: [SetExpiry] always completes and only writes
    [ExpireAt].  For a number of seconds whose nanoseconds fit an [int64]
    (at most [max_seconds] in absolute value), [ExpireAt] is the clock
    reading plus that many seconds when the number is not 0, and the clock
    reading plus a hundred years, which is more than ten years ahead, when
    it is 0. *)
Theorem SetExpiry_in_range (u : UptimeReportData) (expiresInSeconds : Z) (w : World) :
  - max_seconds <= expiresInSeconds <= max_seconds ->
  exists u',
    SetExpiry u expiresInSeconds w = (Ret u', w) /\
    u' = with_ExpireAt u (ExpireAt u') /\
    if decide (expiresInSeconds = 0)
    then ExpireAt u' = now w + hundred_years /\ now w + ten_years < ExpireAt u'
    else ExpireAt u' = now w + expiresInSeconds * time_Second.
Proof.
  intros Hx. unfold SetExpiry, bind, time_Now, ret, Time_Add.
  eexists. split; [reflexivity|]. split; [reflexivity|].
  cbn [ExpireAt with_ExpireAt].
  destruct (decide (expiresInSeconds = 0)) as [->|Hne].
  - cbn. unfold hundred_years, ten_years, time_Hour, time_Second. lia.
  - apply Z.eqb_neq in Hne. rewrite Hne.
    by rewrite Duration_mul_seconds.
Qed.

Lemma SetExpiry_in_range_witness :
  (exists u',
     SetExpiry blank_record 3600 empty_world = (Ret u', empty_world) /\
     u' = with_ExpireAt blank_record (ExpireAt u') /\
     ExpireAt u' = now empty_world + 3600 * time_Second) /\
  (exists u',
     SetExpiry blank_record 0 empty_world = (Ret u', empty_world) /\
     u' = with_ExpireAt blank_record (ExpireAt u') /\
     ExpireAt u' = now empty_world + hundred_years /\
     now empty_world + ten_years < ExpireAt u').
Proof.
  split.
  - apply (SetExpiry_in_range blank_record 3600 empty_world).
    unfold max_seconds. lia.
  - apply (SetExpiry_in_range blank_record 0 empty_world).
    unfold max_seconds. lia.
Defined.

(** C3, as stated, fails beyond that range, where the nanosecond count
    wraps: with 9223372037 seconds
    [ExpireAt] is not the clock reading plus 9223372037 seconds but an
    instant before the clock reading. *)
Lemma SetExpiry_wraps :
  exists u',
    SetExpiry blank_record 9223372037 empty_world = (Ret u', empty_world) /\
    ExpireAt u' = now empty_world - 9223372036709551616 /\
    ExpireAt u' <> now empty_world + 9223372037 * time_Second.
Proof.
  eexists. split; [reflexivity|]. split; [reflexivity|].
  vm_compute. discriminate.
Qed.

(** ** Uptime analytics *)

Section Analytics.
Context `{GoLib}.

(** The flag set by the struct literal. *)
Lemma newAnalyticsRecord_ServerError (report : HostHealthReport) (org : string) (t : Time) :
  ServerError (newAnalyticsRecord report org t) = true <-> 200 < hr_ResponseCode report.
Proof.
  cbn. destruct (Z.ltb_spec 200 (hr_ResponseCode report)); split; (done || lia).
Qed.

(** The run on a registered API: the record is built, [SetExpiry] stamps
    it, and its encoding is appended (or the encoder's error returned). *)
Lemma RecordUptimeAnalytics_registered_run (hc : HostCheckerManager)
    (report : HostHealthReport) (w : World) (spec : APISpec)
    (s : RedisClusterStorageManager) :
  ApiSpecRegister w !! report_api report = Some spec ->
  store hc = Some s ->
  exists r,
    SetExpiry (newAnalyticsRecord report (spec_OrgID spec) (now w))
      (ExpireUptimeAnalyticsAfter (ut_Config (spec_UptimeTests spec))) w = (Ret r, w) /\
    RecordUptimeAnalytics hc report w =
      match msgpack_Marshal r with
      | inl encoded =>
          (Ret None, snd (store_AppendToSet UptimeAnalytics_KEYNAME encoded w))
      | inr err =>
          (Ret (Some err), emit (EvLog Error ["Error encoding uptime data:"; err]) w)
      end.
Proof.
  intros Hreg Hs. unfold report_api in Hreg.
  eexists. split; [reflexivity|].
  unfold RecordUptimeAnalytics, bind at 1, register_lookup. rewrite Hreg.
  rewrite bool_decide_eq_true_2 by eauto.
  unfold SetExpiry, on_store. rewrite Hs. unfold bind, deref, time_Now, ret.
  cbn beta iota.
  match goal with |- context [msgpack_Marshal ?r] => destruct (msgpack_Marshal r) end;
    reflexivity.
Qed.

(** C7: the record [RecordUptimeAnalytics] builds has [ServerError] set
    exactly when the report's response code is above 200; and when the
    report's API is registered and a store is configured, the run completes
    with such a record: its encoding is appended to the analytics set, or
    the encoder's error is returned. *)
Theorem RecordUptimeAnalytics_ServerError (hc : HostCheckerManager)
    (report : HostHealthReport) (w : World) :
  (forall org t,
     ServerError (newAnalyticsRecord report org t) = true <-> 200 < hr_ResponseCode report) /\
  (forall spec s,
     ApiSpecRegister w !! report_api report = Some spec ->
     store hc = Some s ->
     exists r,
       (ServerError r = true <-> 200 < hr_ResponseCode report) /\
       OrgID r = spec_OrgID spec /\
       exists w',
         effects (since w w') =
           match msgpack_Marshal r with
           | inl encoded => [EvAppendToSet UptimeAnalytics_KEYNAME encoded]
           | inr _ => []
           end /\
         RecordUptimeAnalytics hc report w =
           (Ret match msgpack_Marshal r with
                | inl _ => None
                | inr err => Some err
                end, w')).
Proof.
  split; [intros org t; apply newAnalyticsRecord_ServerError|].
  intros spec s Hreg Hs.
  destruct (RecordUptimeAnalytics_registered_run hc report w spec s Hreg Hs)
    as (r & Hexp & Hrun).
  exists r. unfold SetExpiry, bind, time_Now, ret in Hexp.
  injection Hexp as <-.
  split; [apply newAnalyticsRecord_ServerError|].
  split; [reflexivity|].
  rewrite Hrun.
  match goal with |- context [msgpack_Marshal ?r] => destruct (msgpack_Marshal r) end;
    eexists; (split; [|reflexivity]);
    (erewrite since_app; [|trace_norm; reflexivity]); reflexivity.
Qed.

(** A report whose API id is not in the register: the lookup gives the nil
    pointer, [thisOrg] stays empty, and reading the spec's retention for
    [SetExpiry] panics before anything is encoded or stored. *)
Lemma RecordUptimeAnalytics_unregistered (hc : HostCheckerManager)
    (report : HostHealthReport) (w : World) :
  ApiSpecRegister w !! report_api report = None ->
  RecordUptimeAnalytics hc report w = (Panic nil_dereference, w).
Proof.
  intros Hreg. unfold report_api in Hreg.
  unfold RecordUptimeAnalytics, bind at 1, register_lookup. rewrite Hreg.
  rewrite bool_decide_eq_false_2 by (intros [x Hx]; discriminate).
  reflexivity.
Qed.

End Analytics.

Lemma RecordUptimeAnalytics_ServerError_witness :
  (ServerError (newAnalyticsRecord (H := TestLib.lib) example_report "org1" 0) = true
   <-> 200 < 500) /\
  (exists r,
     (ServerError r = true <-> 200 < 500) /\
     OrgID r = "org1" /\
     exists w',
       effects (since registered_world w') =
         match TestLib.marshal r with
         | inl encoded => [EvAppendToSet UptimeAnalytics_KEYNAME encoded]
         | inr _ => []
         end /\
       RecordUptimeAnalytics (H := TestLib.lib) (manager "A") example_report
         registered_world =
         (Ret match TestLib.marshal r with
              | inl _ => None
              | inr err => Some err
              end, w')).
Proof.
  destruct (RecordUptimeAnalytics_ServerError (H := TestLib.lib) (manager "A")
              example_report registered_world) as [Hflag Hrun].
  split.
  - apply (Hflag "org1" 0).
  - apply (Hrun five_checks_spec RedisHandle); reflexivity.
Defined.

(** The same report recorded in [registered_world]: the run completes and
    the set holds one encoded record, flagged as a server error. *)
Example RecordUptimeAnalytics_registered :
  let r := RecordUptimeAnalytics (H := TestLib.lib) (manager "A") example_report
             registered_world in
  fst r = Ret None /\
  redis_sets (snd r) !! UptimeAnalytics_KEYNAME =
    Some ["http://api.example.com/path|12|500|false|true|1|11|2016|0|1477958400000000000|1477962000000000000|t1|org1"].
Proof. vm_compute. split; reflexivity. Qed.

(** C8: a report whose API id is not in the register (here the register
    is empty) does not get recorded: the run panics on the nil spec, nothing
    is appended to the analytics set and no record is produced. *)
Theorem RecordUptimeAnalytics_unregistered_panics :
  ApiSpecRegister empty_world !! report_api example_report = None /\
  RecordUptimeAnalytics (H := TestLib.lib) (manager "A") example_report empty_world
    = (Panic nil_dereference, empty_world).
Proof. split; reflexivity. Qed.

(** ** The purge loop *)

Lemma UptimePurgeLoop_body_run (hc : HostCheckerManager) (w : World) :
  exists w' evs,
    UptimePurgeLoop_body hc w = (Ret tt, w') /\
    trace w' = trace w ++ evs /\
    config w' = config w /\
    effects evs = purge_iteration w hc.
Proof.
  unfold UptimePurgeLoop_body, purge_iteration, bind, get_config, time_Sleep,
    Purger_PurgeCache, log, tell, ret.
  destruct (pollerStarted hc); [destruct (Clean hc) as [p|]|]; cbn;
    eexists; eexists; (split; [reflexivity|]);
    (split; [trace_norm; reflexivity|]); split; reflexivity.
Qed.

Lemma UptimePurgeLoop_iter_run (view : nat -> HostCheckerManager) (n : nat) :
  forall (i : nat) (w : World),
  exists w' evs,
    UptimePurgeLoop_iter view i n w = (Ret tt, w') /\
    trace w' = trace w ++ evs /\
    config w' = config w /\
    effects evs = flat_map (fun k => purge_iteration w (view k)) (seq i n).
Proof.
  induction n as [|n IH]; intros i w.
  - exists w, []. cbn. by rewrite app_nil_r.
  - cbn [UptimePurgeLoop_iter seq flat_map]. unfold bind at 1.
    destruct (UptimePurgeLoop_body_run (view i) w) as (w1 & evs1 & -> & Ht1 & Hc1 & He1).
    destruct (IH (S i) w1) as (w' & evs & -> & Ht & Hc & He).
    exists w', (evs1 ++ evs).
    split; [reflexivity|].
    split; [by rewrite Ht, Ht1, app_assoc|].
    split; [by rewrite Hc|].
    rewrite effects_app, He1, He. f_equal.
    apply flat_map_ext. intros k. unfold purge_iteration. by rewrite Hc1.
Qed.

(** C9: when [PurgeDelay] is -1, [UptimePurgeLoop] returns at once,
    whatever number of iterations it is given room for, and all it does is
    log one warning: no purge, no sleep.  Otherwise it never returns: after
    any number [n] of iterations it is still looping, and what it did is, for
    each iteration in turn, a purge if the manager seen by that iteration had
    [pollerStarted] set (and a purger), and then a sleep. *)
Theorem UptimePurgeLoop_gated (view : nat -> HostCheckerManager) (n : nat) (w : World) :
  exists w',
    if decide (PurgeDelay (config w) = -1) then
      UptimePurgeLoop view n w = (Ret Returned, w') /\
      since w w' =
        [EvLog Warning
           ["Analytics purge turned off, you are responsible for Redis storage maintenance."]] /\
      List.filter is_purge (since w w') = []
    else
      UptimePurgeLoop view n w = (Ret Looping, w') /\
      effects (since w w') = flat_map (fun i => purge_iteration w (view i)) (seq 0 n) /\
      List.filter is_purge (since w w') =
        flat_map (fun i => if pollerStarted (view i) && bool_decide (is_Some (Clean (view i)))
                           then [EvPurgeCache] else [])
                 (seq 0 n).
Proof.
  destruct (decide (PurgeDelay (config w) = -1)) as [Hoff|Hon];
    unfold UptimePurgeLoop; unfold bind at 1; unfold get_config; cbv beta iota.
  - rewrite Hoff. cbn. eexists. split; [reflexivity|].
    rewrite since_emit1. split; reflexivity.
  - apply Z.eqb_neq in Hon. rewrite Hon.
    unfold bind at 1. unfold log, tell. cbv beta iota. unfold bind at 1.
    destruct (UptimePurgeLoop_iter_run view n 0%nat
                (emit (EvLog Debug ["[HOST CHECK MANAGER] Started analytics purge loop"]) w))
      as (w' & evs & -> & Ht & Hc & He).
    exists w'. split; [reflexivity|].
    rewrite (since_app w w'
               ([EvLog Debug ["[HOST CHECK MANAGER] Started analytics purge loop"]] ++ evs))
      by (rewrite Ht, trace_emit, <- app_assoc; reflexivity).
    split; [rewrite effects_app; exact He|].
    cbn [app List.filter is_purge].
    assert (Hp : forall l, List.filter is_purge l = List.filter is_purge (effects l)).
    { intros l. unfold effects. induction l as [|[] l IHl]; cbn; congruence. }
    rewrite Hp, He. clear.
    induction (seq 0 n) as [|i l IH]; [reflexivity|].
    cbn [flat_map]. rewrite List.filter_app, IH. f_equal.
    unfold purge_iteration. by destruct (_ && _).
Qed.

(** Four iterations seen by a manager that is leader in the even ones. *)
Example UptimePurgeLoop_alternating :
  effects (since empty_world (snd (UptimePurgeLoop alternating_view 4 empty_world)))
  = [EvPurgeCache; EvSleep (10 * time_Second); EvSleep (10 * time_Second);
     EvPurgeCache; EvSleep (10 * time_Second); EvSleep (10 * time_Second)] /\
  fst (UptimePurgeLoop alternating_view 4 purge_disabled_world) = Ret Returned /\
  effects (since purge_disabled_world
             (snd (UptimePurgeLoop alternating_view 4 purge_disabled_world))) = [].
Proof. vm_compute. repeat split. Qed.

(** * Further properties *)

(** ** The lease *)

Lemma goroutines_app (a b : list Event) : goroutines (a ++ b) = goroutines a ++ goroutines b.
Proof. apply omap_app. Qed.

Lemma sleeps_app (a b : list Event) : sleeps (a ++ b) = sleeps a ++ sleeps b.
Proof. apply omap_app. Qed.

Lemma store_calls_app (a b : list Event) : store_calls (a ++ b) = store_calls a ++ store_calls b.
Proof. apply List.filter_app. Qed.

(** Every call of [AmIPolling] returns; the answer is [lease_open_to], a
    [true] leaves the lease with the caller for 15 seconds, a [false]
    leaves Redis alone, and nothing else changes but the trace, which gets
    no goroutine and no sleep. *)
Lemma AmIPolling_run (hc : HostCheckerManager) (w : World) :
  exists w' evs,
    AmIPolling hc w = (Ret (lease_open_to hc w), w') /\
    trace w' = trace w ++ evs /\
    redis w' = (if lease_open_to hc w
                then <[PollerCacheKey := (Id hc, 15)]> (redis w) else redis w) /\
    same_surroundings w w' /\
    goroutines evs = [] /\ sleeps evs = [].
Proof.
  unfold AmIPolling, lease_open_to, lease_holder, same_surroundings.
  destruct (store hc) as [s|] eqn:Hs.
  - unfold bind, on_store, deref, store_GetKey, store_SetKey, log, tell, ret. cbn.
    destruct (redis w !! PollerCacheKey) as [[v ttl]|] eqn:E; cbn.
    + destruct (String.eqb v (Id hc)); cbn; eexists; eexists;
        (split; [reflexivity|]); (split; [trace_norm; reflexivity|]); done.
    + eexists; eexists. split; [reflexivity|]. split; [trace_norm; reflexivity|]. done.
  - eexists; eexists. split; [reflexivity|]. split; [apply trace_emit|]. done.
Qed.

(** With the lease held by [a], a round of calls answers each manager by
    whether it is [a], and the lease is still [a]'s afterwards. *)
Lemma polls_held (a : string) (hcs : list HostCheckerManager) :
  Forall (fun hc => is_Some (store hc)) hcs ->
  forall w, lease_holder w = Some a ->
  exists w',
    polls hcs w = (Ret ((fun hc => String.eqb a (Id hc)) <$> hcs), w') /\
    lease_holder w' = Some a.
Proof.
  induction 1 as [|hc hcs [s Hs] _ IH]; intros w Hw.
  - exists w. done.
  - cbn [polls]. unfold bind at 1.
    destruct (AmIPolling_run hc w) as (w1 & evs & -> & _ & Hr & _).
    assert (Hopen : lease_open_to hc w = String.eqb a (Id hc)).
    { unfold lease_open_to. by rewrite Hs, Hw. }
    assert (Hw1 : lease_holder w1 = Some a).
    { unfold lease_holder in *. rewrite Hr, Hopen.
      destruct (String.eqb_spec a (Id hc)) as [->|_]; [|done].
      by rewrite lookup_insert_eq. }
    destruct (IH w1 Hw1) as (w' & Hrest & Hw').
    unfold bind at 1. rewrite Hrest. exists w'. rewrite Hopen. done.
Qed.

(** X1: managers with a store call [AmIPolling] one after the other on a
    Redis without lease.  The first caller is answered [true]; every later
    caller is answered [true] exactly when it carries the first caller's id;
    and the lease ends up under that id. *)
Theorem polls_first_wins (hc : HostCheckerManager) (hcs : list HostCheckerManager)
    (w : World) :
  Forall (fun h => is_Some (store h)) (hc :: hcs) ->
  lease_holder w = None ->
  exists w',
    polls (hc :: hcs) w = (Ret (true :: ((fun h => String.eqb (Id hc) (Id h)) <$> hcs)), w') /\
    lease_holder w' = Some (Id hc).
Proof.
  intros Hall Hw. inversion Hall as [|? ? [s Hs] Hrest]; subst.
  cbn [polls]. unfold bind at 1.
  destruct (AmIPolling_run hc w) as (w1 & evs & -> & _ & Hr & _).
  assert (Hopen : lease_open_to hc w = true).
  { unfold lease_open_to. by rewrite Hs, Hw. }
  rewrite Hopen in *.
  assert (Hw1 : lease_holder w1 = Some (Id hc)).
  { unfold lease_holder. by rewrite Hr, lookup_insert_eq. }
  destruct (polls_held (Id hc) hcs Hrest w1 Hw1) as (w' & Hp & Hw').
  unfold bind at 1. rewrite Hp. exists w'. done.
Qed.

Lemma polls_first_wins_witness :
  exists w',
    polls [manager "A"; manager "B"; manager "A"; manager "C"] empty_world
      = (Ret [true; false; true; false], w') /\
    lease_holder w' = Some "A".
Proof.
  apply (polls_first_wins (manager "A") [manager "B"; manager "A"; manager "C"] empty_world).
  - repeat constructor; eexists; reflexivity.
  - reflexivity.
Defined.

Lemma lease_holder_elapse (secs : Z) (w : World) (id : string) :
  redis w !! PollerCacheKey = Some (id, 15) ->
  lease_holder (elapse secs w) = if 15 <=? secs then None else Some id.
Proof.
  intros Hw. unfold lease_holder, elapse. cbn [redis].
  rewrite lookup_omap, Hw. cbn. unfold age_entry. cbn.
  by destruct (15 <=? secs).
Qed.

(** X2: once a manager has been answered [true], the lease lasts 15
    seconds: after [secs] seconds without a renewal a manager with another id
    is answered [true] exactly when [secs] is at least 15, and the holder
    itself is answered [true] whenever it asks. *)
Theorem lease_lasts_15_seconds (a b : HostCheckerManager) (secs : Z) (w : World) :
  lease_open_to a w = true ->
  is_Some (store b) ->
  Id a <> Id b ->
  fst (AmIPolling b (elapse secs (snd (AmIPolling a w)))) = Ret (15 <=? secs) /\
  fst (AmIPolling a (elapse secs (snd (AmIPolling a w)))) = Ret true.
Proof.
  intros Ha [sb Hb] Hne.
  destruct (AmIPolling_run a w) as (w1 & evs & -> & _ & Hr & _).
  rewrite Ha in Hr. cbn [snd].
  assert (Hlease : redis w1 !! PollerCacheKey = Some (Id a, 15))
    by (by rewrite Hr, lookup_insert_eq).
  pose proof (lease_holder_elapse secs w1 (Id a) Hlease) as Hh.
  assert (Hsa : is_Some (store a)).
  { unfold lease_open_to in Ha. destruct (store a); [eauto|discriminate]. }
  destruct Hsa as [sa Hsa].
  split.
  - destruct (AmIPolling_run b (elapse secs w1)) as (w2 & evs2 & -> & _).
    cbn [fst]. f_equal. unfold lease_open_to. rewrite Hb, Hh.
    destruct (15 <=? secs); [reflexivity|].
    by apply String.eqb_neq.
  - destruct (AmIPolling_run a (elapse secs w1)) as (w2 & evs2 & -> & _).
    cbn [fst]. f_equal. unfold lease_open_to. rewrite Hsa, Hh.
    destruct (15 <=? secs); [reflexivity|]. apply String.eqb_refl.
Qed.

Lemma lease_lasts_15_seconds_witness :
  (fst (AmIPolling (manager "B") (elapse 14 (snd (AmIPolling (manager "A") empty_world))))
     = Ret false /\
   fst (AmIPolling (manager "A") (elapse 14 (snd (AmIPolling (manager "A") empty_world))))
     = Ret true) /\
  (fst (AmIPolling (manager "B") (elapse 15 (snd (AmIPolling (manager "A") empty_world))))
     = Ret true /\
   fst (AmIPolling (manager "A") (elapse 15 (snd (AmIPolling (manager "A") empty_world))))
     = Ret true).
Proof.
  split.
  - apply (lease_lasts_15_seconds (manager "A") (manager "B") 14 empty_world).
    + reflexivity.
    + eexists; reflexivity.
    + discriminate.
  - apply (lease_lasts_15_seconds (manager "A") (manager "B") 15 empty_world).
    + reflexivity.
    + eexists; reflexivity.
    + discriminate.
Defined.

(** ** The election loop *)

Lemma with_pollerStarted_same (hc : HostCheckerManager) (b : bool) :
  pollerStarted hc = b -> with_pollerStarted hc b = hc.
Proof. intros <-. by destruct hc. Qed.

(** One tick: the election, the flag set to its answer, the goroutine of
    the transition, and a sleep of ten seconds. *)
Lemma CheckActivePollerLoop_body_run (hc : HostCheckerManager) (w : World) :
  exists w' evs,
    CheckActivePollerLoop_body hc w
      = (Ret (with_pollerStarted hc (lease_open_to hc w)), w') /\
    trace w' = trace w ++ evs /\
    redis w' = (if lease_open_to hc w
                then <[PollerCacheKey := (Id hc, 15)]> (redis w) else redis w) /\
    same_surroundings w w' /\
    goroutines evs = transition (pollerStarted hc) (lease_open_to hc w) /\
    sleeps evs = [10 * time_Second].
Proof.
  unfold CheckActivePollerLoop_body. unfold bind at 1.
  destruct (AmIPolling_run hc w) as (w1 & evs & -> & Ht & Hr & Hsame & Hg & Hsl).
  unfold same_surroundings in *.
  destruct (lease_open_to hc w), (pollerStarted hc) eqn:Hp;
    rewrite ?(with_pollerStarted_same hc _ Hp);
    unfold bind, log, go, time_Sleep, tell, ret; cbn;
    eexists; eexists;
    (split; [reflexivity|]);
    (split; [trace_norm; rewrite Ht, <- ?app_assoc; reflexivity|]);
    (split; [exact Hr|]); (split; [exact Hsame|]);
    rewrite goroutines_app, sleeps_app, Hg, Hsl; split; reflexivity.
Qed.

(** X3: a tick of the election loop always completes, whether a store is
    set or not.  Afterwards [pollerStarted] is the answer of the election
    and no other field of the manager has changed; the poller is started
    only when the flag goes from unset to set, stopped only when it goes from
    set to unset, and nothing is started otherwise; the tick ends with one
    sleep of ten seconds. *)
Theorem CheckActivePollerLoop_body_transition (hc : HostCheckerManager) (w : World) :
  exists w',
    CheckActivePollerLoop_body hc w
      = (Ret (with_pollerStarted hc (lease_open_to hc w)), w') /\
    fst (AmIPolling hc w) = Ret (lease_open_to hc w) /\
    goroutines (since w w') = transition (pollerStarted hc) (lease_open_to hc w) /\
    sleeps (since w w') = [10 * time_Second].
Proof.
  destruct (CheckActivePollerLoop_body_run hc w) as (w' & evs & Hrun & Ht & _ & _ & Hg & Hs).
  exists w'. split; [exact Hrun|].
  split.
  { destruct (AmIPolling_run hc w) as (w1 & evs1 & -> & _). reflexivity. }
  by rewrite (since_app w w' evs Ht).
Qed.




(** ** Down markers and the lease *)

Section MarkerProperties.
Context `{GoLib}.

Lemma getHostKey_not_lease (hc : HostCheckerManager) (report : HostHealthReport) :
  getHostKey hc report <> PollerCacheKey.
Proof. unfold getHostKey, PoolerHostSentinelKeyPrefix, PollerCacheKey. cbn. intros [=]. Qed.

(** [OnHostDown] with a store: it completes, writes the marker, and
    leaves everything else but the trace as it was. *)
Lemma OnHostDown_run (hc : HostCheckerManager) (s : RedisClusterStorageManager)
    (report : HostHealthReport) (w : World) :
  store hc = Some s ->
  exists w',
    OnHostDown hc report w = (Ret tt, w') /\
    redis w' = <[getHostKey hc report := ("1", TimeWait (config w))]> (redis w) /\
    same_surroundings w w'.
Proof.
  intros Hs. unfold OnHostDown. rewrite Hs.
  unfold bind, on_store, deref, store_SetKey, register_lookup, get_config, log, go,
    tell, ret. cbn.
  destruct (bool_decide _); cbn; eexists; (split; [reflexivity|]); done.
Qed.

(** [OnHostBackUp] with a store: it completes, deletes the marker and then
    starts the event goroutine if the report's API is registered. *)
Lemma OnHostBackUp_run (hc : HostCheckerManager) (s : RedisClusterStorageManager)
    (report : HostHealthReport) (w : World) :
  store hc = Some s ->
  exists w' evs,
    OnHostBackUp hc report w = (Ret tt, w') /\
    trace w' = trace w ++ evs /\
    redis w' = delete (getHostKey hc report) (redis w) /\
    same_surroundings w w' /\
    effects evs =
      EvDeleteKey (getHostKey hc report) ::
      match ApiSpecRegister w !! report_api report with
      | Some spec =>
          [EvGo (GoFireEvent (Some spec) EVENT_HOSTUP
                   (mkEVENT_HostStatusMeta "Uptime test suceeded" report))]
      | None => []
      end.
Proof.
  intros Hs. unfold OnHostBackUp, report_api. rewrite Hs.
  unfold bind, on_store, deref, store_DeleteKey, register_lookup, log, go, tell, ret. cbn.
  destruct (ApiSpecRegister w !! map_index (MetaData report) UnHealthyHostMetaDataAPIKey)
    as [spec|] eqn:E.
  - rewrite bool_decide_eq_true_2 by eauto. cbn.
    eexists; eexists. split; [reflexivity|]. split; [trace_norm; reflexivity|]. done.
  - rewrite bool_decide_eq_false_2 by (intros [x Hx]; discriminate). cbn.
    eexists; eexists. split; [reflexivity|]. split; [trace_norm; reflexivity|]. done.
Qed.

(** Without a store the two callbacks panic before touching anything. *)
Lemma callbacks_nil_store (hc : HostCheckerManager) (report : HostHealthReport) (w : World) :
  store hc = None ->
  redis (snd (OnHostDown hc report w)) = redis w /\
  redis (snd (OnHostBackUp hc report w)) = redis w.
Proof.
  intros Hs. unfold OnHostDown, OnHostBackUp. rewrite Hs. split; reflexivity.
Qed.

(** X5: the marker of a host and the lease live under different keys,
    whatever the host name in the report.  So neither callback ever changes
    who holds the lease, with or without a store, and an election never
    changes a marker. *)
Theorem markers_and_lease_apart (hc elector : HostCheckerManager)
    (report : HostHealthReport) (w : World) :
  lease_holder (snd (OnHostDown hc report w)) = lease_holder w /\
  lease_holder (snd (OnHostBackUp hc report w)) = lease_holder w /\
  redis (snd (AmIPolling elector w)) !! getHostKey hc report
    = redis w !! getHostKey hc report.
Proof.
  pose proof (getHostKey_not_lease hc report) as Hne.
  split; [|split].
  - destruct (store hc) as [s|] eqn:Hs.
    + destruct (OnHostDown_run hc s report w Hs) as (w' & -> & Hr & _).
      unfold lease_holder. cbn [snd]. by rewrite Hr, lookup_insert_ne.
    + unfold lease_holder. by rewrite (proj1 (callbacks_nil_store hc report w Hs)).
  - destruct (store hc) as [s|] eqn:Hs.
    + destruct (OnHostBackUp_run hc s report w Hs) as (w' & evs & -> & _ & Hr & _).
      unfold lease_holder. cbn [snd]. by rewrite Hr, lookup_delete_ne.
    + unfold lease_holder. by rewrite (proj2 (callbacks_nil_store hc report w Hs)).
  - destruct (AmIPolling_run elector w) as (w' & evs & -> & _ & Hr & _).
    cbn [snd]. rewrite Hr. destruct (lease_open_to elector w); [|done].
    by rewrite lookup_insert_ne.
Qed.

(** X6: [OnHostDown] touches one key.  The marker of the report's host
    reads ["1"] with [TimeWait] as TTL, every other key of Redis reads as
    before, and a second [OnHostDown] for the same report leaves Redis as the
    first one did. *)
Theorem OnHostDown_one_key (hc : HostCheckerManager) (s : RedisClusterStorageManager)
    (report : HostHealthReport) (w : World) :
  store hc = Some s ->
  let w1 := snd (OnHostDown hc report w) in
  redis w1 !! getHostKey hc report = Some ("1", TimeWait (config w)) /\
  (forall k, k <> getHostKey hc report -> redis w1 !! k = redis w !! k) /\
  redis (snd (OnHostDown hc report w1)) = redis w1.
Proof.
  intros Hs w1. subst w1.
  destruct (OnHostDown_run hc s report w Hs) as (w1 & -> & Hr1 & Hc1 & _).
  cbn [snd].
  split; [by rewrite Hr1, lookup_insert_eq|].
  split; [intros k Hk; by rewrite Hr1, lookup_insert_ne|].
  destruct (OnHostDown_run hc s report w1 Hs) as (w2 & -> & Hr2 & _).
  cbn [snd]. by rewrite Hr2, Hc1, Hr1, insert_insert_eq.
Qed.

(** X7: with a store, [OnHostBackUp] completes for every report.  Its
    first call to a collaborator deletes the marker of the report's host;
    the host-up event goroutine follows only when the report's API id is in
    [ApiSpecRegister]. *)
Theorem OnHostBackUp_clears_then_fires (hc : HostCheckerManager)
    (s : RedisClusterStorageManager) (report : HostHealthReport) (w : World) :
  store hc = Some s ->
  exists w',
    OnHostBackUp hc report w = (Ret tt, w') /\
    redis w' !! getHostKey hc report = None /\
    (forall k, k <> getHostKey hc report -> redis w' !! k = redis w !! k) /\
    effects (since w w') =
      EvDeleteKey (getHostKey hc report) ::
      match ApiSpecRegister w !! report_api report with
      | Some spec =>
          [EvGo (GoFireEvent (Some spec) EVENT_HOSTUP
                   (mkEVENT_HostStatusMeta "Uptime test suceeded" report))]
      | None => []
      end.
Proof.
  intros Hs.
  destruct (OnHostBackUp_run hc s report w Hs) as (w' & evs & Hrun & Ht & Hr & _ & He).
  exists w'. split; [exact Hrun|].
  split; [by rewrite Hr, lookup_delete_eq|].
  split; [intros k Hk; by rewrite Hr, lookup_delete_ne|].
  by rewrite (since_app w w' evs Ht).
Qed.

(** X8: a host that goes down and comes back leaves no trace in Redis:
    [OnHostDown] followed by [OnHostBackUp] for the same report gives the
    Redis from before without the host's marker, which is the Redis from
    before when the host had no marker; and a second [OnHostBackUp] changes
    nothing. *)
Theorem down_then_up_restores (hc : HostCheckerManager) (s : RedisClusterStorageManager)
    (report : HostHealthReport) (w : World) :
  store hc = Some s ->
  let w2 := snd (OnHostBackUp hc report (snd (OnHostDown hc report w))) in
  redis w2 = delete (getHostKey hc report) (redis w) /\
  (redis w !! getHostKey hc report = None -> redis w2 = redis w) /\
  redis (snd (OnHostBackUp hc report w2)) = redis w2.
Proof.
  intros Hs w2. subst w2.
  destruct (OnHostDown_run hc s report w Hs) as (w1 & -> & Hr1 & _).
  cbn [snd].
  destruct (OnHostBackUp_run hc s report w1 Hs) as (w2 & evs2 & -> & _ & Hr2 & _).
  cbn [snd].
  assert (Hdel : redis w2 = delete (getHostKey hc report) (redis w))
    by (by rewrite Hr2, Hr1, delete_insert_eq).
  split; [exact Hdel|].
  split; [intros Hnone; by rewrite Hdel, delete_id|].
  destruct (OnHostBackUp_run hc s report w2 Hs) as (w3 & evs3 & -> & _ & Hr3 & _).
  cbn [snd]. by rewrite Hr3, Hdel, delete_delete_eq.
Qed.

(** The one store call of [IsHostDown] on a URL that parses. *)
Lemma IsHostDown_store_call (hc : HostCheckerManager) (s : RedisClusterStorageManager)
    (thisUrl : string) (u : url_URL) (w : World) :
  url_Parse thisUrl = inl u ->
  store hc = Some s ->
  store_calls (since w (snd (IsHostDown hc thisUrl w)))
    = [EvGetKey (PoolerHostSentinelKeyPrefix +:+ Host u)].
Proof.
  intros Hu Hs. unfold IsHostDown. rewrite Hu, Hs.
  unfold bind, on_store, deref, store_GetKey, log, tell, ret. cbn.
  destruct (redis w !! _) as [[v ttl]|]; cbn;
    (erewrite since_app; [|trace_norm; reflexivity]); reflexivity.
Qed.

(** X9: [IsHostDown] only reads.  For every manager and every string it
    leaves the keys and the sets of Redis as they were and starts nothing.
    On a URL that parses, and with a store, its one call to the store is a
    read of the prefixed host; on a string that [url.Parse] refuses it logs
    the error and then panics on the nil URL, without calling the store. *)
Theorem IsHostDown_reads_only (hc : HostCheckerManager) (thisUrl : string) (w : World) :
  let r := IsHostDown hc thisUrl w in
  redis (snd r) = redis w /\
  redis_sets (snd r) = redis_sets w /\
  goroutines (since w (snd r)) = [] /\
  match url_Parse thisUrl, store hc with
  | inl u, Some _ =>
      (exists b, fst r = Ret b) /\
      store_calls (since w (snd r)) = [EvGetKey (PoolerHostSentinelKeyPrefix +:+ Host u)]
  | inl u, None =>
      fst r = Panic nil_dereference /\ store_calls (since w (snd r)) = []
  | inr e, _ =>
      fst r = Panic nil_dereference /\
      since w (snd r) = [EvLog Error [e]]
  end.
Proof.
  unfold IsHostDown.
  destruct (url_Parse thisUrl) as [u|e]; cbn [ptr_err].
  - destruct (store hc) as [s|] eqn:Hs;
      unfold bind, on_store, deref, store_GetKey, log, tell, ret; cbn.
    + destruct (redis w !! _) as [[v ttl]|]; cbn;
        (split; [reflexivity|]); (split; [reflexivity|]);
        (erewrite since_app; [|trace_norm; reflexivity]);
        (split; [reflexivity|]); (split; [eauto|reflexivity]).
    + split; [reflexivity|]. split; [reflexivity|].
      rewrite since_emit1. done.
  - unfold bind, deref, log, tell, ret, panic. cbn.
    split; [reflexivity|]. split; [reflexivity|].
    rewrite since_emit1. destruct (store hc); done.
Qed.

(** X10: the three sides of a marker agree on its key.  When
    [PrepareTrackingHost] accepts a configuration, a report carrying the
    descriptor's metadata makes [OnHostDown] write, and [OnHostBackUp]
    delete, exactly the key that [IsHostDown] reads for the descriptor's
    check URL; and the report's API id is the one the descriptor was prepared
    for. *)
Theorem marker_key_agrees (hc hc' : HostCheckerManager) (s : RedisClusterStorageManager)
    (c : HostCheckObject) (id : string)
    (d : HostData) (report : HostHealthReport) (w w' : World) :
  fst (PrepareTrackingHost hc c id w) = Ret (d, None) ->
  MetaData report = hd_MetaData d ->
  store hc' = Some s ->
  report_api report = id /\
  map_index (MetaData report) UnHealthyHostMetaDataTargetKey = hd_CheckURL d /\
  store_calls (since w' (snd (IsHostDown hc' (hd_CheckURL d) w')))
    = [EvGetKey (getHostKey hc' report)].
Proof.
  intros Hprep Hmeta Hs. unfold PrepareTrackingHost in Hprep.
  destruct (url_Parse (co_CheckURL c)) as [u|e] eqn:Hu; [|discriminate].
  destruct (if 0 <? Z.of_nat (String.length (co_Body c))
            then b64_DecodeString (co_Body c) else inl "") as [body|e]; [|discriminate].
  cbn in Hprep. injection Hprep as <-.
  unfold report_api, getHostKey, map_index. rewrite Hmeta. cbn [hd_MetaData hd_CheckURL].
  split; [by rewrite lookup_insert_ne, lookup_insert_eq by done|].
  split; [by rewrite !lookup_insert_ne, lookup_insert_eq by done|].
  rewrite lookup_insert_eq. cbn [default].
  apply (IsHostDown_store_call hc' s (co_CheckURL c) u w' Hu Hs).
Qed.

End MarkerProperties.

Lemma OnHostDown_one_key_witness :
  let w1 := snd (OnHostDown (manager "A") example_report empty_world) in
  redis w1 !! getHostKey (manager "A") example_report
    = Some ("1", TimeWait (config empty_world)) /\
  (forall k, k <> getHostKey (manager "A") example_report ->
             redis w1 !! k = redis empty_world !! k) /\
  redis (snd (OnHostDown (manager "A") example_report w1)) = redis w1.
Proof.
  exact (OnHostDown_one_key (manager "A") RedisHandle example_report empty_world eq_refl).
Defined.

Lemma OnHostBackUp_clears_then_fires_witness :
  exists w',
    OnHostBackUp (manager "A") example_report world_led_by_A = (Ret tt, w') /\
    redis w' !! getHostKey (manager "A") example_report = None /\
    (forall k, k <> getHostKey (manager "A") example_report ->
               redis w' !! k = redis world_led_by_A !! k) /\
    effects (since world_led_by_A w')
      = [EvDeleteKey "PollerCheckerInstance:api.example.com"].
Proof.
  exact (OnHostBackUp_clears_then_fires (manager "A") RedisHandle example_report
           world_led_by_A eq_refl).
Defined.

Lemma down_then_up_restores_witness :
  let w2 := snd (OnHostBackUp (manager "A") example_report
                   (snd (OnHostDown (manager "A") example_report world_led_by_A))) in
  redis w2 = redis world_led_by_A /\
  redis (snd (OnHostBackUp (manager "A") example_report w2)) = redis w2.
Proof.
  destruct (down_then_up_restores (manager "A") RedisHandle example_report
              world_led_by_A eq_refl) as (_ & Hback & Hagain).
  split; [apply Hback; reflexivity|exact Hagain].
Defined.

Lemma marker_key_agrees_witness :
  report_api example_report = "t1" /\
  map_index (MetaData example_report) UnHealthyHostMetaDataTargetKey
    = "http://api.example.com/path" /\
  store_calls (since world_led_by_A
                 (snd (IsHostDown (H := TestLib.lib) (manager "B")
                         "http://api.example.com/path" world_led_by_A)))
    = [EvGetKey (getHostKey (manager "B") example_report)].
Proof.
  apply (marker_key_agrees (H := TestLib.lib) (manager "A") (manager "B") RedisHandle
           example_check "t1" example_descriptor example_report empty_world
           world_led_by_A); reflexivity.
Defined.

(** ** The tracking list, as a map *)

Lemma last_with_url_elem (hd : list HostData) (url : string) (h : HostData) :
  last_with_url hd url = Some h -> h ∈ hd /\ hd_CheckURL h = url.
Proof.
  unfold last_with_url. intros Hlast.
  apply last_Some_elem_of, list_elem_of_In, List.filter_In in Hlast as [Hin Heq].
  split; [by apply list_elem_of_In|by apply String.eqb_eq].
Qed.

(** With distinct URLs, a URL reads the descriptor that carries it. *)
Lemma last_with_url_NoDup (hd : list HostData) (h : HostData) :
  NoDup (hd_CheckURL <$> hd) -> h ∈ hd -> last_with_url hd (hd_CheckURL h) = Some h.
Proof.
  unfold last_with_url.
  induction hd as [|x l IH] using rev_ind; intros Hnd Hin.
  - by apply elem_of_nil in Hin.
  - rewrite fmap_app in Hnd. apply NoDup_app in Hnd as (Hl & Hsep & _).
    rewrite last_filter_snoc.
    apply elem_of_app in Hin as [Hin|Hin%list_elem_of_singleton].
    + destruct (String.eqb_spec (hd_CheckURL x) (hd_CheckURL h)) as [Heq|_]; [|by apply IH].
      exfalso. apply (Hsep (hd_CheckURL h)).
      * by apply list_elem_of_fmap_2.
      * rewrite <- Heq. apply list_elem_of_singleton. reflexivity.
    + subst h. by rewrite String.eqb_refl.
Qed.

Lemma tracking_map_lookup (hd : list HostData) (url : string) :
  tracking_map hd !! url = last_with_url hd url.
Proof.
  unfold tracking_map. rewrite foldl_insert_lookup, lookup_empty.
  by destruct (last_with_url hd url).
Qed.

(** The map has at most one entry per descriptor. *)
Lemma tracking_map_size (hd : list HostData) : (size (tracking_map hd) <= length hd)%nat.
Proof.
  unfold tracking_map.
  induction hd as [|x l IH] using rev_ind; [cbn; by rewrite map_size_empty|].
  rewrite foldl_app, length_app. cbn [foldl length].
  rewrite map_size_insert. destruct (_ !! _); cbn; lia.
Qed.

(** With distinct URLs, the order of the descriptors does not matter. *)
Lemma tracking_map_perm (hd hd' : list HostData) :
  hd ≡ₚ hd' -> NoDup (hd_CheckURL <$> hd) -> tracking_map hd = tracking_map hd'.
Proof.
  intros Hperm Hnd.
  assert (Hnd' : NoDup (hd_CheckURL <$> hd')) by (by rewrite <- Hperm).
  apply map_eq. intros url. rewrite !tracking_map_lookup.
  apply option_eq. intros h. split; intros Hh.
  - apply last_with_url_elem in Hh as [Hin <-].
    apply last_with_url_NoDup; [done|]. by rewrite <- Hperm.
  - apply last_with_url_elem in Hh as [Hin <-].
    apply last_with_url_NoDup; [done|]. by rewrite Hperm.
Qed.

(** What [UpdateTrackingList] returns. *)
Lemma UpdateTrackingList_result (hc : HostCheckerManager) (hd : list HostData) (w : World) :
  exists w',
    UpdateTrackingList hc hd w
      = (Ret (mkHostCheckerManager (Id hc) (store hc) (checker hc) (stopLoop hc)
                (pollerStarted hc) (unhealthyHostList hc) (tracking_map hd) (Clean hc)),
         w') /\
    redis w' = redis w /\ redis_sets w' = redis_sets w.
Proof.
  unfold UpdateTrackingList, tracking_map, bind, log, checker_ResetList, tell, ret.
  destruct (checker hc); cbn; eexists; (split; [reflexivity|]); done.
Qed.

(** X11: the new tracking list never has more entries than descriptors
    were given, and none for an empty input.  When the check URLs of the
    input are pairwise distinct it has exactly one entry per descriptor, and
    every descriptor is found under its own URL. *)
Theorem UpdateTrackingList_size (hc : HostCheckerManager) (hd : list HostData) (w : World) :
  exists hc' w',
    UpdateTrackingList hc hd w = (Ret hc', w') /\
    (size (currentHostList hc') <= length hd)%nat /\
    (NoDup (hd_CheckURL <$> hd) ->
     size (currentHostList hc') = length hd /\
     forall h, h ∈ hd -> currentHostList hc' !! hd_CheckURL h = Some h).
Proof.
  destruct (UpdateTrackingList_result hc hd w) as (w' & Hrun & _).
  eexists; exists w'. split; [exact Hrun|]. cbn [currentHostList].
  split; [apply tracking_map_size|].
  intros Hnd. split.
  - rewrite <- size_dom. unfold tracking_map.
    rewrite foldl_insert_dom, size_list_to_set, length_fmap; done.
  - intros h Hin. rewrite tracking_map_lookup. by apply last_with_url_NoDup.
Qed.

Lemma UpdateTrackingList_size_witness :
  exists hc' w',
    UpdateTrackingList (manager "A") [example_descriptor; other_descriptor] empty_world
      = (Ret hc', w') /\
    size (currentHostList hc') = 2%nat /\
    forall h, h ∈ [example_descriptor; other_descriptor] ->
              currentHostList hc' !! hd_CheckURL h = Some h.
Proof.
  destruct (UpdateTrackingList_size (manager "A") [example_descriptor; other_descriptor]
              empty_world) as (hc' & w' & Hrun & _ & Hdistinct).
  exists hc', w'. split; [exact Hrun|].
  apply Hdistinct. apply (bool_decide_unpack _). vm_compute. exact I.
Defined.

Section TrackingProperties.
Context `{GoLib}.

(** A descriptor carries the check URL of its configuration. *)
Lemma prepared_CheckURL (hc : HostCheckerManager) (w : World)
    (c : HostCheckObject * string) (d : HostData) :
  prepared hc w c = Some d -> hd_CheckURL d = co_CheckURL (fst c).
Proof.
  unfold prepared, PrepareTrackingHost.
  destruct (url_Parse (co_CheckURL (fst c))) as [u|e]; [|discriminate].
  destruct (if 0 <? Z.of_nat (String.length (co_Body (fst c)))
            then b64_DecodeString (co_Body (fst c)) else inl "") as [body|e];
    [|discriminate].
  cbn. by intros [= <-].
Qed.

Lemma prepared_urls (hc : HostCheckerManager) (w : World)
    (cs : list (HostCheckObject * string)) :
  hd_CheckURL <$> omap (prepared hc w) cs
  = (fun c => co_CheckURL (fst c)) <$> List.filter (kept hc w) cs.
Proof.
  induction cs as [|c cs IH]; [reflexivity|].
  cbn. unfold kept. destruct (prepared hc w c) as [d|] eqn:Hd; [|exact IH].
  cbn. by rewrite IH, (prepared_CheckURL hc w c d Hd).
Qed.

(** What [SetCheckerHostList] returns: the manager with the map of the
    descriptors of the accepted configurations as its host list. *)
Lemma SetCheckerHostList_result (hc : HostCheckerManager) (specs : list APISpec)
    (w : World) :
  exists w',
    SetCheckerHostList hc specs w
      = (Ret (mkHostCheckerManager (Id hc) (store hc) (checker hc) (stopLoop hc)
                (pollerStarted hc) (unhealthyHostList hc)
                (tracking_map (omap (prepared hc w) (check_configs specs))) (Clean hc)),
         w').
Proof.
  unfold SetCheckerHostList. unfold bind at 1. unfold log, tell. cbv beta iota.
  unfold bind at 1.
  destruct (SetCheckerHostList_specs_run hc w specs []
              (emit (EvLog Info ["Loading uptime tests:"]) w))
    as (w1 & evs & -> & _).
  cbn [app].
  destruct (UpdateTrackingList_result hc (omap (prepared hc w) (check_configs specs)) w1)
    as (w' & -> & _).
  by exists w'.
Qed.

(** X12: the order in which [ApiSpecRegister] is visited does not show in
    the result when the descriptors built have pairwise distinct check URLs:
    two visits of the same APIs in different orders return the same
    manager. *)
Theorem SetCheckerHostList_order_irrelevant (hc : HostCheckerManager)
    (specs specs' : list APISpec) (w : World) :
  specs ≡ₚ specs' ->
  NoDup (hd_CheckURL <$> omap (prepared hc w) (check_configs specs)) ->
  fst (SetCheckerHostList hc specs w) = fst (SetCheckerHostList hc specs' w).
Proof.
  intros Hperm Hnd.
  destruct (SetCheckerHostList_result hc specs w) as (w1 & ->).
  destruct (SetCheckerHostList_result hc specs' w) as (w2 & ->).
  cbn [fst]. do 2 f_equal.
  apply tracking_map_perm; [|exact Hnd].
  unfold check_configs. by rewrite Hperm.
Qed.

(** X13: after [SetCheckerHostList] the URLs under watch are exactly the
    check URLs of the configurations [PrepareTrackingHost] accepts, whatever
    the manager was tracking before; the manager's other fields are
    untouched. *)
Theorem SetCheckerHostList_tracks_accepted (hc : HostCheckerManager)
    (specs : list APISpec) (w : World) :
  exists hc' w',
    SetCheckerHostList hc specs w = (Ret hc', w') /\
    dom (currentHostList hc')
      = list_to_set ((fun c => co_CheckURL (fst c)) <$>
                       List.filter (kept hc w) (check_configs specs)) /\
    (Id hc', store hc', checker hc', stopLoop hc', pollerStarted hc',
     unhealthyHostList hc', Clean hc')
      = (Id hc, store hc, checker hc, stopLoop hc, pollerStarted hc,
         unhealthyHostList hc, Clean hc).
Proof.
  destruct (SetCheckerHostList_result hc specs w) as (w' & Hrun).
  eexists; exists w'. split; [exact Hrun|]. cbn [currentHostList].
  split; [|reflexivity].
  unfold tracking_map. by rewrite foldl_insert_dom, prepared_urls.
Qed.

(** A descriptor that [PrepareTrackingHost] returns without error is the
    one the spec asks for. *)
Lemma prepared_describes (hc : HostCheckerManager) (w : World)
    (c : HostCheckObject * string) (d : HostData) :
  prepared hc w c = Some d -> describes c d.
Proof.
  unfold prepared, PrepareTrackingHost, describes.
  destruct (url_Parse (co_CheckURL (fst c))) as [u|e] eqn:Hu; [|discriminate].
  destruct (co_Body (fst c)) as [|a body] eqn:Hb; cbn.
  - intros [= <-]. cbn. repeat (split; [reflexivity|]).
    exists u. split; [reflexivity|].
    apply map_eq. intros k. rewrite !lookup_insert. repeat case_decide; naive_solver.
  - destruct (b64_DecodeString (String a body)) as [decoded|e] eqn:Hd; [|discriminate].
    cbn. intros [= <-]. cbn. repeat (split; [reflexivity|]).
    exists u. split; [reflexivity|].
    apply map_eq. intros k. rewrite !lookup_insert. repeat case_decide; naive_solver.
Qed.

Lemma accepted_described (hc : HostCheckerManager) (w : World)
    (cs : list (HostCheckObject * string)) :
  Forall2 describes (List.filter (kept hc w) cs) (omap (prepared hc w) cs).
Proof.
  induction cs as [|c cs IH]; [constructor|].
  cbn. unfold kept. destruct (prepared hc w c) as [d|] eqn:Hd; [|exact IH].
  constructor; [by apply (prepared_describes hc w)|exact IH].
Qed.

(** C4: [SetCheckerHostList] always completes.  A configuration is kept
    exactly when [PrepareTrackingHost] returns no error on it — its URL
    parses and its body, if any, decodes — and each other configuration is
    reported once and skipped.  The kept configurations give, in order, the
    descriptors the spec asks for; these are handed to [UpdateTrackingList],
    and the manager's host list afterwards reads, at every URL, the last of
    them with that URL, its keys being the URLs of the kept configurations.
    So a batch of five whose URLs all parse and of which exactly one has an
    invalid base64 body yields four descriptors and one report, and a host
    list of four entries when the four URLs differ. *)
Theorem SetCheckerHostList_skips_malformed (hc : HostCheckerManager)
    (specs : list APISpec) (w : World) :
  let configs := check_configs specs in
  let accepted := List.filter (kept hc w) configs in
  let hostList := omap (prepared hc w) configs in
  exists hc' w' w1,
    SetCheckerHostList hc specs w = (Ret hc', w') /\
    UpdateTrackingList hc hostList w1 = (Ret hc', w') /\
    (forall c, kept hc w c = negb (bad_url (fst c) || bad_body (fst c))) /\
    Forall2 describes accepted hostList /\
    (forall url, currentHostList hc' !! url = last_with_url hostList url) /\
    dom (currentHostList hc')
      = list_to_set ((fun c => co_CheckURL (fst c)) <$> accepted) /\
    failure_reports (since w w') = skipped hc w configs /\
    (length hostList + failure_reports (since w w') = length configs)%nat /\
    (length configs = 5%nat ->
     Forall (fun c => bad_url (fst c) = false) configs ->
     length (List.filter (fun c => bad_body (fst c)) configs) = 1%nat ->
     length hostList = 4%nat /\ failure_reports (since w w') = 1%nat /\
     (NoDup ((fun c => co_CheckURL (fst c)) <$> accepted) ->
      size (currentHostList hc') = 4%nat)).
Proof.
  intros configs accepted hostList.
  unfold SetCheckerHostList. unfold bind at 1. unfold log, tell. cbv beta iota.
  unfold bind at 1.
  destruct (SetCheckerHostList_specs_run hc w specs []
              (emit (EvLog Info ["Loading uptime tests:"]) w))
    as (w1 & evs & Hrun & Ht & He & Hf).
  rewrite Hrun. cbn [app]. fold configs. fold hostList.
  destruct (UpdateTrackingList_result hc hostList w1) as (w' & Hupd & _).
  destruct (UpdateTrackingList_trace hc _ hostList w1 w' Hupd) as (evs2 & Ht2 & Hf2).
  assert (Hfail : failure_reports (since w w') = skipped hc w configs).
  { rewrite (since_app w w' ([EvLog Info ["Loading uptime tests:"]] ++ evs ++ evs2)).
    - by rewrite !failure_reports_app, Hf, Hf2, Nat.add_0_r.
    - rewrite Ht2, Ht, trace_emit, <- !app_assoc. reflexivity. }
  assert (Hdom : dom (tracking_map hostList)
                 = list_to_set ((fun c => co_CheckURL (fst c)) <$> accepted)).
  { unfold tracking_map, hostList, accepted.
    by rewrite foldl_insert_dom, prepared_urls. }
  eexists; exists w', w1.
  split; [exact Hupd|]. split; [exact Hupd|]. cbn [currentHostList].
  split; [intros c; apply kept_spec|].
  split; [apply accepted_described|].
  split; [apply tracking_map_lookup|].
  split; [exact Hdom|].
  split; [exact Hfail|].
  pose proof (kept_plus_skipped hc w configs) as Hsum. fold hostList in Hsum.
  split; [rewrite Hfail; exact Hsum|].
  intros Hlen Hurls Hbody.
  rewrite Hfail. rewrite (skipped_bad_bodies hc w configs Hurls), Hbody in *.
  assert (Hfour : length hostList = 4%nat) by lia.
  split; [exact Hfour|]. split; [reflexivity|].
  intros Hnd.
  rewrite <- size_dom, Hdom, size_list_to_set by exact Hnd.
  unfold accepted. rewrite <- prepared_urls, length_fmap. exact Hfour.
Qed.

End TrackingProperties.

Lemma SetCheckerHostList_skips_malformed_witness :
  exists hc' w',
    SetCheckerHostList (H := TestLib.lib) (manager "A") [five_checks_spec] empty_world
      = (Ret hc', w') /\
    dom (currentHostList hc')
      = list_to_set ["http://google.com:3000/"; "http://posttestserver.com/post.php";
                     "http://api.example.com/ping"; "http://api.example.com/path"] /\
    currentHostList hc' !! "http://api.example.com/path" = Some hello_descriptor /\
    currentHostList hc' !! "http://api.example.com/health" = None /\
    size (currentHostList hc') = 4%nat /\
    failure_reports (since empty_world w') = 1%nat.
Proof.
  destruct (SetCheckerHostList_skips_malformed (H := TestLib.lib) (manager "A")
              [five_checks_spec] empty_world)
    as (hc' & w' & w1 & Hrun & _ & _ & _ & Hlookup & Hdom & _ & _ & Hfive).
  destruct Hfive as (_ & Hone & Hsize).
  - reflexivity.
  - vm_compute. repeat constructor.
  - reflexivity.
  - exists hc', w'. split; [exact Hrun|].
    split; [rewrite Hdom; reflexivity|].
    split; [rewrite Hlookup; reflexivity|].
    split; [rewrite Hlookup; reflexivity|].
    split; [|exact Hone].
    apply Hsize. apply (bool_decide_unpack _). vm_compute. exact I.
Defined.

Lemma SetCheckerHostList_order_irrelevant_witness :
  fst (SetCheckerHostList (H := TestLib.lib) (manager "A") [spec_one; spec_two] empty_world)
  = fst (SetCheckerHostList (H := TestLib.lib) (manager "A") [spec_two; spec_one] empty_world).
Proof.
  apply (SetCheckerHostList_order_irrelevant (H := TestLib.lib) (manager "A")
           [spec_one; spec_two] [spec_two; spec_one] empty_world).
  - apply perm_swap.
  - apply (bool_decide_unpack _). vm_compute. exact I.
Defined.

(** ** Uptime analytics, on the store *)

Section AnalyticsProperties.
Context `{GoLib}.

(** X14: for a report whose API is registered and with a store set,
    [RecordUptimeAnalytics] completes.  When the record encodes, the encoding
    is added at the end of the analytics set and nil is returned; when the
    encoder fails, its error is returned and no set changes.  In both cases
    every other set and every key of Redis (markers, lease) is as before. *)
Theorem RecordUptimeAnalytics_appends (hc : HostCheckerManager)
    (s : RedisClusterStorageManager) (report : HostHealthReport) (spec : APISpec)
    (w : World) :
  ApiSpecRegister w !! report_api report = Some spec ->
  store hc = Some s ->
  exists r w',
    SetExpiry (newAnalyticsRecord report (spec_OrgID spec) (now w))
      (ExpireUptimeAnalyticsAfter (ut_Config (spec_UptimeTests spec))) w = (Ret r, w) /\
    redis w' = redis w /\
    (forall k, k <> UptimeAnalytics_KEYNAME -> redis_sets w' !! k = redis_sets w !! k) /\
    match msgpack_Marshal r with
    | inl encoded =>
        RecordUptimeAnalytics hc report w = (Ret None, w') /\
        redis_sets w' !! UptimeAnalytics_KEYNAME
          = Some (default [] (redis_sets w !! UptimeAnalytics_KEYNAME) ++ [encoded])
    | inr err =>
        RecordUptimeAnalytics hc report w = (Ret (Some err), w') /\
        redis_sets w' = redis_sets w /\
        store_calls (since w w') = []
    end.
Proof.
  intros Hreg Hs.
  destruct (RecordUptimeAnalytics_registered_run hc report w spec s Hreg Hs)
    as (r & Hexp & Hrun).
  exists r. rewrite Hrun.
  destruct (msgpack_Marshal r) as [encoded|err].
  - exists (snd (store_AppendToSet UptimeAnalytics_KEYNAME encoded w)).
    split; [exact Hexp|]. split; [reflexivity|].
    split; [intros k Hk; cbn; by rewrite lookup_insert_ne|].
    split; [reflexivity|]. cbn. by rewrite lookup_insert_eq.
  - exists (emit (EvLog Error ["Error encoding uptime data:"; err]) w).
    split; [exact Hexp|]. split; [reflexivity|].
    split; [done|]. split; [reflexivity|]. split; [reflexivity|].
    by rewrite since_emit1.
Qed.


End AnalyticsProperties.

Lemma RecordUptimeAnalytics_appends_witness :
  exists w',
    RecordUptimeAnalytics (H := TestLib.lib) (manager "A") example_report registered_world
      = (Ret None, w') /\
    redis w' = redis registered_world /\
    length (default [] (redis_sets w' !! UptimeAnalytics_KEYNAME)) = 1%nat.
Proof.
  destruct (RecordUptimeAnalytics_appends (H := TestLib.lib) (manager "A") RedisHandle
              example_report five_checks_spec registered_world eq_refl eq_refl)
    as (r & w' & Hexp & Hredis & _ & Hout).
  injection Hexp as <-. cbn in Hout. destruct Hout as [Hrun Hset].
  exists w'. split; [exact Hrun|]. split; [exact Hredis|].
  rewrite Hset. reflexivity.
Defined.


(** ** The purge loop and the election *)

Lemma UptimePurgeLoop_body_frame (hc : HostCheckerManager) (w : World) :
  exists w' evs,
    UptimePurgeLoop_body hc w = (Ret tt, w') /\
    trace w' = trace w ++ evs /\
    (redis w' = redis w /\ redis_sets w' = redis_sets w /\ config w' = config w) /\
    store_calls evs = [] /\ goroutines evs = [] /\
    sleeps evs = [Duration_mul (PurgeDelay (config w)) time_Second] /\
    List.filter is_purge evs
      = if pollerStarted hc && bool_decide (is_Some (Clean hc)) then [EvPurgeCache] else [].
Proof.
  unfold UptimePurgeLoop_body, bind, get_config, time_Sleep, Purger_PurgeCache, log, tell, ret.
  destruct (pollerStarted hc); [destruct (Clean hc) as [p|]|]; cbn;
    eexists; eexists; (split; [reflexivity|]);
    (split; [trace_norm; reflexivity|]); done.
Qed.

Lemma effects_sleeps (n : nat) (d : Duration) :
  effects (replicate n (EvSleep d)) = replicate n (EvSleep d).
Proof. induction n as [|n IH]; [reflexivity|]. cbn. by rewrite <- IH at 2. Qed.

(** An iteration that does not reach the purger only sleeps. *)
Lemma UptimePurgeLoop_body_idle (hc : HostCheckerManager) (w : World) :
  pollerStarted hc && bool_decide (is_Some (Clean hc)) = false ->
  UptimePurgeLoop_body hc w
    = (Ret tt, emit (EvSleep (Duration_mul (PurgeDelay (config w)) time_Second)) w).
Proof.
  unfold UptimePurgeLoop_body.
  destruct (pollerStarted hc); [destruct (Clean hc) as [p|]|]; cbn; intros Hidle;
    first [discriminate | reflexivity].
Qed.

Lemma UptimePurgeLoop_iter_idle (view : nat -> HostCheckerManager) (n : nat) :
  forall (i : nat) (w : World),
  (forall k, (i <= k < i + n)%nat ->
             pollerStarted (view k) && bool_decide (is_Some (Clean (view k))) = false) ->
  exists w',
    UptimePurgeLoop_iter view i n w = (Ret tt, w') /\
    trace w' = trace w ++
               replicate n (EvSleep (Duration_mul (PurgeDelay (config w)) time_Second)) /\
    redis w' = redis w /\ redis_sets w' = redis_sets w /\ config w' = config w.
Proof.
  induction n as [|n IH]; intros i w Hidle.
  - exists w. cbn. by rewrite app_nil_r.
  - cbn [UptimePurgeLoop_iter]. unfold bind at 1.
    rewrite UptimePurgeLoop_body_idle by (apply Hidle; lia).
    destruct (IH (S i) (emit (EvSleep (Duration_mul (PurgeDelay (config w)) time_Second)) w))
      as (w' & -> & Ht & Hr & Hs & Hc).
    { intros k Hk. apply Hidle. lia. }
    exists w'. split; [reflexivity|].
    split; [rewrite Ht; cbn [trace emit config replicate]; by rewrite <- app_assoc|].
    done.
Qed.

(** X16: while the managers it sees are not leader, or have no purger,
    the purge loop does nothing but sleep: it completes every iteration,
    never reaches the purger, calls no store and starts nothing, so the keys
    and sets of Redis are as before; unless [PurgeDelay] is -1 it sleeps once
    per iteration, for [PurgeDelay] seconds as an [int64] count of
    nanoseconds. *)
Theorem UptimePurgeLoop_idle (view : nat -> HostCheckerManager) (n : nat) (w : World) :
  (forall i, (i < n)%nat ->
             pollerStarted (view i) && bool_decide (is_Some (Clean (view i))) = false) ->
  exists st w',
    UptimePurgeLoop view n w = (Ret st, w') /\
    redis w' = redis w /\ redis_sets w' = redis_sets w /\
    effects (since w w') =
      if PurgeDelay (config w) =? -1 then []
      else replicate n (EvSleep (Duration_mul (PurgeDelay (config w)) time_Second)).
Proof.
  intros Hidle.
  unfold UptimePurgeLoop. unfold bind at 1. unfold get_config. cbv beta iota.
  destruct (PurgeDelay (config w) =? -1) eqn:Hoff.
  - cbn. eexists; eexists. split; [reflexivity|].
    rewrite since_emit1. done.
  - unfold bind at 1. unfold log, tell. cbv beta iota. unfold bind at 1.
    destruct (UptimePurgeLoop_iter_idle view n 0%nat
                (emit (EvLog Debug ["[HOST CHECK MANAGER] Started analytics purge loop"]) w))
      as (w' & -> & Ht & Hr & Hs & _).
    { intros k Hk. apply Hidle. lia. }
    exists Looping, w'. split; [reflexivity|].
    split; [exact Hr|]. split; [exact Hs|].
    rewrite (since_app w w'
               ([EvLog Debug ["[HOST CHECK MANAGER] Started analytics purge loop"]] ++
                replicate n (EvSleep (Duration_mul (PurgeDelay (config w)) time_Second))))
      by (rewrite Ht, trace_emit, <- app_assoc; reflexivity).
    rewrite effects_app. cbn [effects List.filter is_log negb app].
    apply effects_sleeps.
Qed.

Lemma UptimePurgeLoop_idle_witness :
  exists st w',
    UptimePurgeLoop (fun _ => manager "A") 3 empty_world = (Ret st, w') /\
    redis w' = redis empty_world /\ redis_sets w' = redis_sets empty_world /\
    effects (since empty_world w') = replicate 3 (EvSleep (10 * time_Second)).
Proof.
  apply (UptimePurgeLoop_idle (fun _ => manager "A") 3 empty_world).
  intros i Hi. reflexivity.
Defined.

(** X17: the purge follows the election.  An iteration of the purge loop
    that reads the manager as a tick of the election loop left it calls the
    purger exactly when that tick's election was won and a purger is set. *)
Theorem purge_follows_election (hc : HostCheckerManager) (w : World) :
  exists hc' w1 w2,
    CheckActivePollerLoop_body hc w = (Ret hc', w1) /\
    UptimePurgeLoop_body hc' w1 = (Ret tt, w2) /\
    fst (AmIPolling hc w) = Ret (lease_open_to hc w) /\
    List.filter is_purge (since w1 w2)
      = if lease_open_to hc w && bool_decide (is_Some (Clean hc))
        then [EvPurgeCache] else [].
Proof.
  destruct (CheckActivePollerLoop_body_run hc w) as (w1 & evs1 & Htick & _).
  destruct (UptimePurgeLoop_body_frame (with_pollerStarted hc (lease_open_to hc w)) w1)
    as (w2 & evs2 & Hpurge & Ht2 & _ & _ & _ & _ & Hp).
  eexists; exists w1, w2. split; [exact Htick|]. split; [exact Hpurge|].
  split.
  { destruct (AmIPolling_run hc w) as (w0 & evs0 & -> & _). reflexivity. }
  by rewrite (since_app w1 w2 evs2 Ht2).
Qed.

(** ** Start-up *)

(** X18: [InitHostCheckManager] installs a manager with the given store
    and purger, the drawn id, no host list and the poller not started; it
    calls no store.  It starts the election loop exactly when the id is not
    empty, and the purge loop only together with it and only when uptime
    analytics are enabled.  The first tick of that manager starts the poller
    exactly when it has a store and the lease is free or already under its
    id. *)
Theorem InitHostCheckManager_starts (fresh : string)
    (store_ : option RedisClusterStorageManager) (purger : option Purger) (w : World) :
  let hc := mkHostCheckerManager fresh store_ None false false ∅ ∅ purger in
  exists w',
    InitHostCheckManager fresh store_ purger w = (Ret hc, w') /\
    redis w' = redis w /\
    store_calls (since w w') = [] /\
    goroutines (since w w') =
      (if String.eqb fresh "" then []
       else GoCheckActivePollerLoop ::
            (if EnableUptimeAnalytics (config w) then [GoUptimePurgeLoop] else [])) /\
    exists w'',
      CheckActivePollerLoop_body hc w'
        = (Ret (with_pollerStarted hc (lease_open_to hc w)), w'') /\
      goroutines (since w' w'')
        = if lease_open_to hc w then [GoStartPoller] else [].
Proof.
  intros hc.
  assert (Hinit : exists w' evs,
            InitHostCheckManager fresh store_ purger w = (Ret hc, w') /\
            trace w' = trace w ++ evs /\
            redis w' = redis w /\
            store_calls evs = [] /\
            goroutines evs =
              (if String.eqb fresh "" then []
               else GoCheckActivePollerLoop ::
                    (if EnableUptimeAnalytics (config w) then [GoUptimePurgeLoop] else []))).
  { unfold InitHostCheckManager, Init, GenerateCheckerId, Start, HostCheckerManager_zero.
    cbn [Id store checker stopLoop pollerStarted unhealthyHostList currentHostList Clean].
    fold hc.
    destruct (String.eqb fresh ""); cbn [negb].
    - exists w, []. rewrite app_nil_r. done.
    - unfold bind, go, get_config, tell, ret. cbn.
      destruct (EnableUptimeAnalytics (config w)); cbn;
        eexists; eexists; (split; [reflexivity|]);
        (split; [trace_norm; reflexivity|]); done. }
  destruct Hinit as (w' & evs & Hrun & Ht & Hr & Hst & Hg).
  exists w'. split; [exact Hrun|]. split; [exact Hr|].
  rewrite (since_app w w' evs Ht). split; [exact Hst|]. split; [exact Hg|].
  destruct (CheckActivePollerLoop_body_run hc w') as (w'' & evs' & Htick & Ht' & _ & _ & Hg' & _).
  assert (Hopen : lease_open_to hc w' = lease_open_to hc w).
  { unfold lease_open_to, lease_holder. by rewrite Hr. }
  rewrite Hopen in *.
  exists w''. split; [exact Htick|].
  rewrite (since_app w' w'' evs' Ht'), Hg'. by destruct (lease_open_to hc w).
Qed.

(** ** Expiry at the edges *)

Lemma int64_wrap_range (z : Z) : - 2 ^ 63 <= int64_wrap z < 2 ^ 63.
Proof.
  unfold int64_wrap.
  pose proof (Z.mod_pos_bound (z + 2 ^ 63) (2 ^ 64) ltac:(lia)). lia.
Qed.

(** X19: whatever the number of seconds, [SetExpiry] completes and puts
    [ExpireAt] within an [int64] of nanoseconds (about 292 years) of the
    clock reading.  A negative number of seconds, as far as its nanoseconds
    fit an [int64], gives a record that has already expired. *)
Theorem SetExpiry_bounds (u : UptimeReportData) (expiresInSeconds : Z) (w : World) :
  exists u',
    SetExpiry u expiresInSeconds w = (Ret u', w) /\
    now w - 2 ^ 63 <= ExpireAt u' < now w + 2 ^ 63 /\
    (- max_seconds <= expiresInSeconds < 0 -> ExpireAt u' < now w).
Proof.
  unfold SetExpiry, bind, time_Now, ret, Time_Add.
  eexists. split; [reflexivity|]. cbn [ExpireAt with_ExpireAt].
  destruct (Z.eqb_spec expiresInSeconds 0) as [->|Hne].
  - split; [unfold time_Hour, time_Second; lia|]. lia.
  - pose proof (int64_wrap_range (expiresInSeconds * time_Second)) as Hrange.
    unfold Duration_mul. split; [lia|].
    intros Hneg. fold (Duration_mul expiresInSeconds time_Second).
    rewrite Duration_mul_seconds by (unfold max_seconds in *; lia).
    unfold time_Second. lia.
Qed.

Lemma SetExpiry_bounds_witness :
  exists u',
    SetExpiry blank_record (-60) empty_world = (Ret u', empty_world) /\
    now empty_world - 2 ^ 63 <= ExpireAt u' < now empty_world + 2 ^ 63 /\
    ExpireAt u' < now empty_world.
Proof.
  destruct (SetExpiry_bounds blank_record (-60) empty_world) as (u' & Hrun & Hrange & Hpast).
  exists u'. split; [exact Hrun|]. split; [exact Hrange|].
  apply Hpast. unfold max_seconds. lia.
Defined.

(** X20: a marker heals by itself.  With a positive [TimeWait], the
    marker written by [OnHostDown] is still in Redis, with the remaining
    TTL, as long as fewer than [TimeWait] seconds have passed, and is gone
    from then on, without any call to [OnHostBackUp]. *)
Theorem marker_expires (hc : HostCheckerManager) (s : RedisClusterStorageManager)
    (report : HostHealthReport) (secs : Z) (w : World) :
  store hc = Some s ->
  0 < TimeWait (config w) ->
  redis (elapse secs (snd (OnHostDown hc report w))) !! getHostKey hc report
  = if TimeWait (config w) <=? secs then None
    else Some ("1", TimeWait (config w) - secs).
Proof.
  intros Hs _.
  unfold elapse. cbn [redis].
  rewrite (OnHostDown_redis hc s report w Hs).
  rewrite lookup_omap, lookup_insert_eq. cbn. unfold age_entry. cbn.
  by destruct (TimeWait (config w) <=? secs).
Qed.

Lemma marker_expires_witness :
  redis (elapse 29 (snd (OnHostDown (manager "A") example_report empty_world)))
    !! getHostKey (manager "A") example_report = Some ("1", 1) /\
  redis (elapse 30 (snd (OnHostDown (manager "A") example_report empty_world)))
    !! getHostKey (manager "A") example_report = None.
Proof.
  split.
  - apply (marker_expires (manager "A") RedisHandle example_report 29 empty_world).
    + reflexivity.
    + reflexivity.
  - apply (marker_expires (manager "A") RedisHandle example_report 30 empty_world).
    + reflexivity.
    + reflexivity.
Defined.
